(** * EngineUtilities: scalar math, vectors, matrices and quaternions

    A shallow embedding of the C++ headers of the repository
    (EngineMath.h, CVector3, Quaternion, Matrix2x2, Matrix3x3, Matrix4x4)
    and the properties of its specification that concern them.

    The C++ type [float] is IEEE-754 binary32.  Every arithmetic
    operator of the source is one correctly rounded operation
    (round to nearest, ties to even) of [SpecFloat] at precision 24 and
    maximal exponent 128; comparisons are the IEEE comparisons (every
    comparison with a NaN is false, [+0 == -0]).  The embedding is
    written once over an interface [Scalar] of those operations, so the
    same source formulas can also be read over exact rationals. *)

From Stdlib Require Import ZArith Bool List Lia.
From Stdlib Require Import Floats.SpecFloat.
From Stdlib Require Import QArith Qabs Qcanon Field.

Open Scope Z_scope.

(** ** The scalar interface *)

Class Scalar (F : Type) : Type := {
  fadd : F -> F -> F;
  fsub : F -> F -> F;
  fmul : F -> F -> F;
  fdiv : F -> F -> F;
  fneg : F -> F;
  feqb : F -> F -> bool;
  fltb : F -> F -> bool;
  fleb : F -> F -> bool;
  (** conversion of an [int] to [float], as [static_cast<float>(i)] and
      the usual arithmetic conversions do *)
  of_int : Z -> F;
  (** the value of a decimal literal [n/d], e.g. [0.5f] is [of_lit 5 10] *)
  of_lit : Z -> positive -> F
}.

Declare Scope fl_scope.
Delimit Scope fl_scope with fl.
Infix "+" := fadd : fl_scope.
Infix "-" := fsub : fl_scope.
Infix "*" := fmul : fl_scope.
Infix "/" := fdiv : fl_scope.
Notation "- x" := (fneg x) : fl_scope.
Infix "==" := feqb (at level 70, no associativity) : fl_scope.
Notation "x != y" := (negb (feqb x y)) (at level 70, no associativity) : fl_scope.
Infix "<" := fltb : fl_scope.
Infix "<=" := fleb : fl_scope.
Notation "x > y" := (fltb y x) : fl_scope.
Notation "x >= y" := (fleb y x) : fl_scope.

(** ** IEEE-754 binary32 *)

Definition float : Type := spec_float.

Module Binary32.

Definition prec : Z := 24.
Definition emax : Z := 128.

Definition of_int (z : Z) : float := binary_normalize prec emax z 0 false.

(** A decimal literal is the binary32 number nearest to [n/d]: the
    division of two integers, rounded once. *)
Definition of_lit (n : Z) (d : positive) : float :=
  match n with
  | Z0 => S754_zero false
  | Zpos p => SFdiv prec emax (S754_finite false p 0) (S754_finite false d 0)
  | Zneg p => SFdiv prec emax (S754_finite true p 0) (S754_finite false d 0)
  end.

Definition is_nan (x : float) : bool :=
  match x with S754_nan => true | _ => false end.

Definition is_zero (x : float) : bool :=
  match x with S754_zero _ => true | _ => false end.

(** neither an infinity nor a NaN *)
Definition is_finite (x : float) : bool :=
  match x with S754_zero _ | S754_finite _ _ _ => true | _ => false end.

(** a float that a binary32 variable can hold *)
Definition valid (x : float) : bool := valid_binary prec emax x.

Definition pos_infinity : float := S754_infinity false.
Definition nan : float := S754_nan.

End Binary32.

#[export] Instance binary32 : Scalar float := {
  fadd := SFadd Binary32.prec Binary32.emax;
  fsub := SFsub Binary32.prec Binary32.emax;
  fmul := SFmul Binary32.prec Binary32.emax;
  fdiv := SFdiv Binary32.prec Binary32.emax;
  fneg := SFopp;
  feqb := SFeqb;
  fltb := SFltb;
  fleb := SFleb;
  of_int := Binary32.of_int;
  of_lit := Binary32.of_lit
}.

(** ** Exact rational arithmetic

    The same interface read without rounding, overflow or underflow. *)

Module Exact.

Definition of_int (z : Z) : Qc := Q2Qc (inject_Z z).
Definition of_lit (n : Z) (d : positive) : Qc := Q2Qc (n # d).
Definition ltb (x y : Qc) : bool :=
  match Qccompare x y with Lt => true | _ => false end.
Definition leb (x y : Qc) : bool :=
  match Qccompare x y with Gt => false | _ => true end.

End Exact.

#[export] Instance exact : Scalar Qc := {
  fadd := Qcplus;
  fsub := Qcminus;
  fmul := Qcmult;
  fdiv := Qcdiv;
  fneg := Qcopp;
  feqb := Qc_eq_bool;
  fltb := Exact.ltb;
  fleb := Exact.leb;
  of_int := Exact.of_int;
  of_lit := Exact.of_lit
}.

(** ** Loops *)

Section Loops.
Context {St : Type}.

(** [for (int i = lo; i < hi; i += step) s = body(i, s);] with
    [step >= 1]: at most [hi - lo] iterations. *)
Fixpoint for_fuel (fuel : nat) (i hi step : Z) (body : Z -> St -> St) (s : St) : St :=
  match fuel with
  | O => s
  | S k =>
      if i <? hi then for_fuel k (i + step) hi step body (body i s) else s
  end.

Definition for_range (lo hi step : Z) (body : Z -> St -> St) (s : St) : St :=
  for_fuel (Z.to_nat (hi - lo)) lo hi step body s.

(** [while (cond(s)) s = body(s);]  Nothing bounds the number of
    iterations, so the loop is run with fuel: [None] when the fuel
    does not reach the exit of the loop. *)
Fixpoint while_fuel (fuel : nat) (cond : St -> bool) (body : St -> St) (s : St) : option St :=
  match fuel with
  | O => None
  | S k =>
      if cond s then while_fuel k cond body (body s) else Some s
  end.

End Loops.

(** ** EngineMath.h: namespace EU::Math *)

Module Math.
Section WithScalar.
Context {F : Type} {SF : Scalar F}.
Local Open Scope fl_scope.

(** The literals [0.f], [1.f] (and the [int] 1 converted in [x - 1]),
    [2.f], [0.5f] and [3.14159265f].  A literal with an integer value,
    such as [6.0f], is written [of_int 6]. *)
Definition zero : F := of_int 0.
Definition one : F := of_int 1.
Definition two : F := of_int 2.
Definition half : F := of_lit 5 10.
Definition pi : F := of_lit 314159265 100000000.

Definition sqrt (x : F) : F :=
  if x <= zero then zero
  else
    let guess := x / two in
    for_range 0 10 1 (fun _ guess => half * (guess + x / guess)) guess.

Definition square (x : F) : F := x * x.

Definition cube (x : F) : F := x * x * x.

Definition power (x : F) (n : Z) : F :=
  for_range 0 n 1 (fun _ result => result * x) one.

Definition abs (x : F) : F := if x < zero then - x else x.

Definition EMax (a b : F) : F := if a > b then a else b.

Definition EMin (a b : F) : F := if a < b then a else b.

Definition fabs (x : F) : F := abs x.

(** [for (int i = 1; i <= 10; ++i)] with the two locals [term] and
    [result] *)
Definition exp (x : F) : F :=
  snd (for_range 1 11 1
         (fun i '(term, result) =>
            let term := term * (x / of_int i) in
            (term, result + term))
         (one, one)).

(** [for (int i = 1; i < 10; i += 2)]; the local [y2] of the source is
    never read *)
Definition log (x : F) : F :=
  if x <= zero then zero
  else
    let y := (x - one) / (x + one) in
    let result :=
      for_range 1 10 2
        (fun i result => result + one / of_int i * power y i) zero in
    two * result.

Definition log10 (x : F) : F := log x / of_lit 23025851 10000000.

(** The two range-reduction loops that open [sin] and [cos]:
    [while (x > 3.14159265f) x -= 2.0f * 3.14159265f;]
    [while (x < -3.14159265f) x += 2.0f * 3.14159265f;] *)
Definition reduce (fuel : nat) (x : F) : option F :=
  match while_fuel fuel (fun x => x > pi) (fun x => x - two * pi) x with
  | None => None
  | Some x => while_fuel fuel (fun x => x < - pi) (fun x => x + two * pi) x
  end.

Definition sin (fuel : nat) (x : F) : option F :=
  match reduce fuel x with
  | None => None
  | Some x =>
      let x2 := x * x in
      Some (x - (x2 * x) / of_int 6 + (x2 * x2 * x) / of_int 120
              - (x2 * x2 * x2 * x) / of_int 5040)
  end.

Definition cos (fuel : nat) (x : F) : option F :=
  match reduce fuel x with
  | None => None
  | Some x =>
      let x2 := x * x in
      Some (one - x2 / two + (x2 * x2) / of_int 24
              - (x2 * x2 * x2) / of_int 720)
  end.

Definition tan (fuel : nat) (x : F) : option F :=
  match cos fuel x with
  | None => None
  | Some c =>
      if c == zero then Some zero
      else match sin fuel x with
           | None => None
           | Some s => Some (s / c)
           end
  end.

Definition asin (x : F) : F :=
  let x2 := x * x in
  x + (x2 * x) / of_int 6 + (of_int 3 * x2 * x2 * x) / of_int 40.

Definition acos (x : F) : F := of_lit 15707963 10000000 - asin x.

Definition atan (x : F) : F :=
  x - (x * x * x) / of_int 3 + (x * x * x * x * x) / of_int 5.

Definition sinh (x : F) : F := (exp x - exp (- x)) / two.

Definition cosh (x : F) : F := (exp x + exp (- x)) / two.

Definition tanh (x : F) : F := sinh x / cosh x.

Definition radians (degrees : F) : F := degrees * pi / of_int 180.

Definition degrees (radians : F) : F := radians * of_int 180 / pi.

End WithScalar.
End Math.

(** ** EngineMath.h: the functions that convert a [float] to an [int]

    [static_cast<int>(x)] truncates towards zero; it is undefined
    behaviour for a NaN, an infinity, and a value whose truncation is
    not an [int], and so is an [int] addition that overflows: [None]. *)

Module MathInt.

Definition INT_MIN : Z := -2147483648.
Definition INT_MAX : Z := 2147483647.

(** the result of an [int] operation whose exact value is [z] *)
Definition checked (z : Z) : option Z :=
  if (INT_MIN <=? z) && (z <=? INT_MAX) then Some z else None.

(** the integer part of [m * 2^e] *)
Definition truncate (m : positive) (e : Z) : Z :=
  match e with
  | Zneg k => Z.shiftr (Zpos m) (Zpos k)
  | _ => Zpos m * 2 ^ e
  end.

(** [static_cast<int>(x)] *)
Definition to_int (x : float) : option Z :=
  match x with
  | S754_zero _ => Some 0
  | S754_finite s m e => checked (cond_Zopp s (truncate m e))
  | S754_infinity _ | S754_nan => None
  end.

Definition round (x : float) : option Z :=
  if (x >= Math.zero)%fl then to_int (x + Math.half)%fl
  else to_int (x - Math.half)%fl.

(** [x != i] compares [x] with [i] converted to [float] *)
Definition floor (x : float) : option Z :=
  match to_int x with
  | None => None
  | Some i =>
      if (x < Math.zero)%fl && (x != of_int i)%fl then checked (i - 1)
      else Some i
  end.

Definition ceil (x : float) : option Z :=
  match to_int x with
  | None => None
  | Some i =>
      if (x > Math.zero)%fl && (x != of_int i)%fl then checked (i + 1)
      else Some i
  end.

(** [mod(a, b)] *)
Definition mod_ (a b : float) : option float :=
  match floor (a / b)%fl with
  | None => None
  | Some q => Some (a - b * of_int q)%fl
  end.

End MathInt.

(** ** Fixed-size C arrays

    [T a[2]], [T a[3]] and [T a[4]] hold exactly two, three and four
    elements.  An index outside the array is undefined behaviour in
    C++; every index of the code below is in range (loop bounds, and
    [% 3] of a non-negative [int]), and the accessors send any other
    index to the last element. *)

Record array2 (A : Type) : Type := Array2 { at2_0 : A; at2_1 : A }.
Arguments Array2 {A}.
Arguments at2_0 {A}.
Arguments at2_1 {A}.

Record array3 (A : Type) : Type := Array3 { at3_0 : A; at3_1 : A; at3_2 : A }.
Arguments Array3 {A}.
Arguments at3_0 {A}.
Arguments at3_1 {A}.
Arguments at3_2 {A}.

Record array4 (A : Type) : Type :=
  Array4 { at4_0 : A; at4_1 : A; at4_2 : A; at4_3 : A }.
Arguments Array4 {A}.
Arguments at4_0 {A}.
Arguments at4_1 {A}.
Arguments at4_2 {A}.
Arguments at4_3 {A}.

Section Arrays.
Context {A : Type}.

Definition get2 (a : array2 A) (i : Z) : A :=
  match i with
  | 0 => at2_0 a
  | _ => at2_1 a
  end.

Definition get3 (a : array3 A) (i : Z) : A :=
  match i with
  | 0 => at3_0 a
  | 1 => at3_1 a
  | _ => at3_2 a
  end.

Definition set3 (a : array3 A) (i : Z) (v : A) : array3 A :=
  match i with
  | 0 => Array3 v (at3_1 a) (at3_2 a)
  | 1 => Array3 (at3_0 a) v (at3_2 a)
  | _ => Array3 (at3_0 a) (at3_1 a) v
  end.

Definition get4 (a : array4 A) (i : Z) : A :=
  match i with
  | 0 => at4_0 a
  | 1 => at4_1 a
  | 2 => at4_2 a
  | _ => at4_3 a
  end.

Definition set4 (a : array4 A) (i : Z) (v : A) : array4 A :=
  match i with
  | 0 => Array4 v (at4_1 a) (at4_2 a) (at4_3 a)
  | 1 => Array4 (at4_0 a) v (at4_2 a) (at4_3 a)
  | 2 => Array4 (at4_0 a) (at4_1 a) v (at4_3 a)
  | _ => Array4 (at4_0 a) (at4_1 a) (at4_2 a) v
  end.

End Arrays.

(** ** CVector2

    Modelled from the spec: the class [CVector2] that Matrix2x2.h and
    Matrix3x3.h include from Vectors/Vector2.h is not among the sources;
    the spec's data model gives it the attributes [x, y (float)], and the
    matrix code uses only its two-argument constructor and those two
    fields. *)

Module CVector2.
Record t (F : Type) : Type := mk { x : F; y : F }.
Arguments mk {F}.
Arguments x {F}.
Arguments y {F}.
End CVector2.

(** ** CVector3 *)

Module CVector3.
Record t (F : Type) : Type := mk { x : F; y : F; z : F }.
Arguments mk {F}.
Arguments x {F}.
Arguments y {F}.
Arguments z {F}.

Section WithScalar.
Context {F : Type} {SF : Scalar F}.
Local Open Scope fl_scope.

(** [CVector3()] *)
Definition default : t F := mk Math.zero Math.zero Math.zero.

(** [operator+], [operator-], [operator*(float)], [operator/(float)] *)
Definition add (a other : t F) : t F :=
  mk (x a + x other) (y a + y other) (z a + z other).

Definition sub (a other : t F) : t F :=
  mk (x a - x other) (y a - y other) (z a - z other).

Definition mul_scalar (a : t F) (scalar : F) : t F :=
  mk (x a * scalar) (y a * scalar) (z a * scalar).

Definition div_scalar (a : t F) (divisor : F) : t F :=
  mk (x a / divisor) (y a / divisor) (z a / divisor).

(** [operator==] *)
Definition eqb (a other : t F) : bool :=
  (x a == x other) && (y a == y other) && (z a == z other).

Definition length (a : t F) : F :=
  Math.sqrt (x a * x a + y a * y a + z a * z a).

Definition lengthSquared (a : t F) : F :=
  x a * x a + y a * y a + z a * z a.

Definition dot (a other : t F) : F :=
  x a * x other + y a * y other + z a * z other.

Definition cross (a other : t F) : t F :=
  mk (y a * z other - z a * y other)
     (z a * x other - x a * z other)
     (x a * y other - y a * x other).

Definition normalized (a : t F) : t F :=
  let len := length a in
  if len == Math.zero then mk Math.zero Math.zero Math.zero
  else mk (x a / len) (y a / len) (z a / len).

(** [void normalize()]: the vector after the call *)
Definition normalize (a : t F) : t F :=
  let len := length a in
  if len != Math.zero then mk (x a / len) (y a / len) (z a / len)
  else a.

Definition lerp (a b : t F) (t0 : F) : t F :=
  let t1 := if t0 < Math.zero then Math.zero else t0 in
  let t2 := if t1 > Math.one then Math.one else t1 in
  add a (mul_scalar (sub b a) t2).

Definition zero : t F := mk Math.zero Math.zero Math.zero.

Definition one : t F := mk Math.one Math.one Math.one.

(** [operator+=], [operator-=], [operator*=], [operator/=]: the vector
    after the assignment *)
Definition add_assign (a other : t F) : t F :=
  let a := mk (x a + x other) (y a) (z a) in
  let a := mk (x a) (y a + y other) (z a) in
  mk (x a) (y a) (z a + z other).

Definition sub_assign (a other : t F) : t F :=
  let a := mk (x a - x other) (y a) (z a) in
  let a := mk (x a) (y a - y other) (z a) in
  mk (x a) (y a) (z a - z other).

Definition mul_assign (a : t F) (scalar : F) : t F :=
  let a := mk (x a * scalar) (y a) (z a) in
  let a := mk (x a) (y a * scalar) (z a) in
  mk (x a) (y a) (z a * scalar).

Definition div_assign (a : t F) (scalar : F) : t F :=
  let a := mk (x a / scalar) (y a) (z a) in
  let a := mk (x a) (y a / scalar) (z a) in
  mk (x a) (y a) (z a / scalar).

(** [operator!=] *)
Definition neqb (a other : t F) : bool := negb (eqb a other).

(** [operator[](int index)]: the component the returned reference
    designates, and the vector after an assignment through it *)
Definition index (a : t F) (i : Z) : F :=
  if (i =? 0)%Z then x a else if (i =? 1)%Z then y a else z a.

Definition set_index (a : t F) (i : Z) (v : F) : t F :=
  if (i =? 0)%Z then mk v (y a) (z a)
  else if (i =? 1)%Z then mk (x a) v (z a)
  else mk (x a) (y a) v.

Definition distance (a b : t F) : F := length (sub a b).

(** [setPosition], [move], [setScale], [scale], [setOrigin]: the
    vector after the call *)
Definition setPosition (a position : t F) : t F :=
  mk (x position) (y position) (z position).

Definition move (a offset : t F) : t F :=
  let a := mk (x a + x offset) (y a) (z a) in
  let a := mk (x a) (y a + y offset) (z a) in
  mk (x a) (y a) (z a + z offset).

Definition setScale (a factors : t F) : t F :=
  mk (x factors) (y factors) (z factors).

Definition scale (a factors : t F) : t F :=
  let a := mk (x a * x factors) (y a) (z a) in
  let a := mk (x a) (y a * y factors) (z a) in
  mk (x a) (y a) (z a * z factors).

Definition setOrigin (a origin : t F) : t F :=
  mk (x origin) (y origin) (z origin).

End WithScalar.
End CVector3.

(** ** CVector4 *)

Module CVector4.
Record t (F : Type) : Type := mk { x : F; y : F; z : F; w : F }.
Arguments mk {F}.
Arguments x {F}.
Arguments y {F}.
Arguments z {F}.
Arguments w {F}.

Section WithScalar.
Context {F : Type} {SF : Scalar F}.
Local Open Scope fl_scope.

(** [CVector4()] *)
Definition default : t F := mk Math.zero Math.zero Math.zero Math.zero.

(** [operator+], [operator-], [operator*(float)], [operator/(float)] *)
Definition add (a other : t F) : t F :=
  mk (x a + x other) (y a + y other) (z a + z other) (w a + w other).

Definition sub (a other : t F) : t F :=
  mk (x a - x other) (y a - y other) (z a - z other) (w a - w other).

Definition mul_scalar (a : t F) (scalar : F) : t F :=
  mk (x a * scalar) (y a * scalar) (z a * scalar) (w a * scalar).

Definition div_scalar (a : t F) (divisor : F) : t F :=
  mk (x a / divisor) (y a / divisor) (z a / divisor) (w a / divisor).

(** [operator+=], [operator-=], [operator*=], [operator/=]: the vector
    after the assignment *)
Definition add_assign (a other : t F) : t F :=
  let a := mk (x a + x other) (y a) (z a) (w a) in
  let a := mk (x a) (y a + y other) (z a) (w a) in
  let a := mk (x a) (y a) (z a + z other) (w a) in
  mk (x a) (y a) (z a) (w a + w other).

Definition sub_assign (a other : t F) : t F :=
  let a := mk (x a - x other) (y a) (z a) (w a) in
  let a := mk (x a) (y a - y other) (z a) (w a) in
  let a := mk (x a) (y a) (z a - z other) (w a) in
  mk (x a) (y a) (z a) (w a - w other).

Definition mul_assign (a : t F) (scalar : F) : t F :=
  let a := mk (x a * scalar) (y a) (z a) (w a) in
  let a := mk (x a) (y a * scalar) (z a) (w a) in
  let a := mk (x a) (y a) (z a * scalar) (w a) in
  mk (x a) (y a) (z a) (w a * scalar).

Definition div_assign (a : t F) (scalar : F) : t F :=
  let a := mk (x a / scalar) (y a) (z a) (w a) in
  let a := mk (x a) (y a / scalar) (z a) (w a) in
  let a := mk (x a) (y a) (z a / scalar) (w a) in
  mk (x a) (y a) (z a) (w a / scalar).

(** [operator==] and [operator!=] *)
Definition eqb (a other : t F) : bool :=
  (x a == x other) && (y a == y other) && (z a == z other) && (w a == w other).

Definition neqb (a other : t F) : bool := negb (eqb a other).

(** [operator[](int index)], a [switch] whose [default] is [w] *)
Definition index (a : t F) (i : Z) : F :=
  match i with
  | 0 => x a
  | 1 => y a
  | 2 => z a
  | _ => w a
  end.

Definition set_index (a : t F) (i : Z) (v : F) : t F :=
  match i with
  | 0 => mk v (y a) (z a) (w a)
  | 1 => mk (x a) v (z a) (w a)
  | 2 => mk (x a) (y a) v (w a)
  | _ => mk (x a) (y a) (z a) v
  end.

Definition length (a : t F) : F :=
  Math.sqrt (x a * x a + y a * y a + z a * z a + w a * w a).

Definition lengthSquared (a : t F) : F :=
  x a * x a + y a * y a + z a * z a + w a * w a.

Definition dot (a other : t F) : F :=
  x a * x other + y a * y other + z a * z other + w a * w other.

Definition normalized (a : t F) : t F :=
  let len := length a in
  if len == Math.zero then mk Math.zero Math.zero Math.zero Math.zero
  else mk (x a / len) (y a / len) (z a / len) (w a / len).

(** [void normalize()]: the vector after the call *)
Definition normalize (a : t F) : t F :=
  let len := length a in
  if len != Math.zero then
    let a := mk (x a / len) (y a) (z a) (w a) in
    let a := mk (x a) (y a / len) (z a) (w a) in
    let a := mk (x a) (y a) (z a / len) (w a) in
    mk (x a) (y a) (z a) (w a / len)
  else a.

Definition distance (a b : t F) : F := length (sub a b).

Definition lerp (a b : t F) (t0 : F) : t F :=
  let t1 := if t0 < Math.zero then Math.zero else t0 in
  let t2 := if t1 > Math.one then Math.one else t1 in
  add a (mul_scalar (sub b a) t2).

Definition zero : t F := mk Math.zero Math.zero Math.zero Math.zero.

Definition one : t F := mk Math.one Math.one Math.one Math.one.

(** [setPosition], [move], [setScale], [scale], [setOrigin]: the
    vector after the call *)
Definition setPosition (a position : t F) : t F :=
  mk (x position) (y position) (z position) (w position).

Definition move (a offset : t F) : t F :=
  let a := mk (x a + x offset) (y a) (z a) (w a) in
  let a := mk (x a) (y a + y offset) (z a) (w a) in
  let a := mk (x a) (y a) (z a + z offset) (w a) in
  mk (x a) (y a) (z a) (w a + w offset).

Definition setScale (a factors : t F) : t F :=
  mk (x factors) (y factors) (z factors) (w factors).

Definition scale (a factors : t F) : t F :=
  let a := mk (x a * x factors) (y a) (z a) (w a) in
  let a := mk (x a) (y a * y factors) (z a) (w a) in
  let a := mk (x a) (y a) (z a * z factors) (w a) in
  mk (x a) (y a) (z a) (w a * w factors).

Definition setOrigin (a origin : t F) : t F :=
  mk (x origin) (y origin) (z origin) (w origin).

End WithScalar.
End CVector4.

(** ** EU::Quaternion *)

Module Quaternion.
Record t (F : Type) : Type := mk { x : F; y : F; z : F; w : F }.
Arguments mk {F}.
Arguments x {F}.
Arguments y {F}.
Arguments z {F}.
Arguments w {F}.

Section WithScalar.
Context {F : Type} {SF : Scalar F}.
Local Open Scope fl_scope.

(** [Quaternion()] *)
Definition default : t F := mk Math.zero Math.zero Math.zero Math.one.

(** [operator*(const Quaternion&)] *)
Definition mul (q other : t F) : t F :=
  mk (w q * x other + x q * w other + y q * z other - z q * y other)
     (w q * y other - x q * z other + y q * w other + z q * x other)
     (w q * z other + x q * y other - y q * x other + z q * w other)
     (w q * w other - x q * x other - y q * y other - z q * z other).

(** [operator==] and [operator!=] *)
Definition eqb (q other : t F) : bool :=
  (x q == x other) && (y q == y other) && (z q == z other) && (w q == w other).

Definition neqb (q other : t F) : bool := negb (eqb q other).

Definition length (q : t F) : F :=
  Math.sqrt (x q * x q + y q * y q + z q * z q + w q * w q).

(** [void normalize()]: the quaternion after the call *)
Definition normalize (q : t F) : t F :=
  let len := length q in
  if len == Math.zero then q
  else
    let q := mk (x q / len) (y q) (z q) (w q) in
    let q := mk (x q) (y q / len) (z q) (w q) in
    let q := mk (x q) (y q) (z q / len) (w q) in
    mk (x q) (y q) (z q) (w q / len).

Definition normalized (q : t F) : t F :=
  let len := length q in
  if len == Math.zero then mk Math.zero Math.zero Math.zero Math.one
  else mk (x q / len) (y q / len) (z q / len) (w q / len).

Definition inverse (q : t F) : t F :=
  let lenSq := x q * x q + y q * y q + z q * z q + w q * w q in
  if lenSq == Math.zero then default
  else mk (- x q / lenSq) (- y q / lenSq) (- z q / lenSq) (w q / lenSq).

Definition fromAxisAngle (fuel : nat) (axis : CVector3.t F) (angle : F)
  : option (t F) :=
  let halfAngle := angle * Math.half in
  match Math.sin fuel halfAngle with
  | None => None
  | Some s =>
      match Math.cos fuel halfAngle with
      | None => None
      | Some c =>
          Some (mk (CVector3.x axis * s) (CVector3.y axis * s)
                   (CVector3.z axis * s) c)
      end
  end.

Definition rotate (q : t F) (v : CVector3.t F) : CVector3.t F :=
  let qv := mk (CVector3.x v) (CVector3.y v) (CVector3.z v) Math.zero in
  let result := mul (mul q qv) (inverse q) in
  CVector3.mk (x result) (y result) (z result).

Definition lerp (a b : t F) (t0 : F) : t F :=
  let t1 :=
    if t0 < Math.zero then Math.zero
    else if t0 > Math.one then Math.one else t0 in
  normalized
    (mk (x a + (x b - x a) * t1)
        (y a + (y b - y a) * t1)
        (z a + (z b - z a) * t1)
        (w a + (w b - w a) * t1)).

Definition identity : t F := mk Math.zero Math.zero Math.zero Math.one.

(** [operator*=]: the quaternion after the assignment *)
Definition mul_assign (q other : t F) : t F := mul q other.

End WithScalar.
End Quaternion.

(** ** EU::Matrix2x2 *)

Module Matrix2x2.
Record t (F : Type) : Type := mk { m00 : F; m01 : F; m10 : F; m11 : F }.
Arguments mk {F}.
Arguments m00 {F}.
Arguments m01 {F}.
Arguments m10 {F}.
Arguments m11 {F}.

Section WithScalar.
Context {F : Type} {SF : Scalar F}.
Local Open Scope fl_scope.

(** [Matrix2x2()] *)
Definition default : t F := mk Math.one Math.zero Math.zero Math.one.

Definition add (a other : t F) : t F :=
  mk (m00 a + m00 other) (m01 a + m01 other)
     (m10 a + m10 other) (m11 a + m11 other).

Definition sub (a other : t F) : t F :=
  mk (m00 a - m00 other) (m01 a - m01 other)
     (m10 a - m10 other) (m11 a - m11 other).

Definition mul_scalar (a : t F) (scalar : F) : t F :=
  mk (m00 a * scalar) (m01 a * scalar) (m10 a * scalar) (m11 a * scalar).

Definition mul (a other : t F) : t F :=
  mk (m00 a * m00 other + m01 a * m10 other)
     (m00 a * m01 other + m01 a * m11 other)
     (m10 a * m00 other + m11 a * m10 other)
     (m10 a * m01 other + m11 a * m11 other).

Definition mul_vec (a : t F) (vec : CVector2.t F) : CVector2.t F :=
  CVector2.mk (m00 a * CVector2.x vec + m01 a * CVector2.y vec)
              (m10 a * CVector2.x vec + m11 a * CVector2.y vec).

Definition determinant (a : t F) : F := m00 a * m11 a - m01 a * m10 a.

Definition transpose (a : t F) : t F := mk (m00 a) (m10 a) (m01 a) (m11 a).

Definition inverse (a : t F) : t F :=
  let det := determinant a in
  if det == Math.zero then default
  else
    let invDet := Math.one / det in
    mk (m11 a * invDet) (- m01 a * invDet)
       (- m10 a * invDet) (m00 a * invDet).

Definition zero : t F := mk Math.zero Math.zero Math.zero Math.zero.

Definition identity : t F := default.

(** [operator+=], [operator-=], [operator*=(float)]: the matrix after
    the assignment *)
Definition add_assign (a other : t F) : t F :=
  let a := mk (m00 a + m00 other) (m01 a) (m10 a) (m11 a) in
  let a := mk (m00 a) (m01 a + m01 other) (m10 a) (m11 a) in
  let a := mk (m00 a) (m01 a) (m10 a + m10 other) (m11 a) in
  mk (m00 a) (m01 a) (m10 a) (m11 a + m11 other).

Definition sub_assign (a other : t F) : t F :=
  let a := mk (m00 a - m00 other) (m01 a) (m10 a) (m11 a) in
  let a := mk (m00 a) (m01 a - m01 other) (m10 a) (m11 a) in
  let a := mk (m00 a) (m01 a) (m10 a - m10 other) (m11 a) in
  mk (m00 a) (m01 a) (m10 a) (m11 a - m11 other).

Definition mul_scalar_assign (a : t F) (scalar : F) : t F :=
  let a := mk (m00 a * scalar) (m01 a) (m10 a) (m11 a) in
  let a := mk (m00 a) (m01 a * scalar) (m10 a) (m11 a) in
  let a := mk (m00 a) (m01 a) (m10 a * scalar) (m11 a) in
  mk (m00 a) (m01 a) (m10 a) (m11 a * scalar).

(** [setIdentity], [setScale], [setRotation]: the matrix after the
    call, all four elements assigned *)
Definition setIdentity (a : t F) : t F :=
  mk Math.one Math.zero Math.zero Math.one.

Definition setScale (a : t F) (scaleX scaleY : F) : t F :=
  mk scaleX Math.zero Math.zero scaleY.

Definition setRotation (fuel : nat) (a : t F) (radians : F) : option (t F) :=
  match Math.cos fuel radians with
  | None => None
  | Some c =>
      match Math.sin fuel radians with
      | None => None
      | Some s => Some (mk c (- s) s c)
      end
  end.

End WithScalar.
End Matrix2x2.

(** ** EU::Matrix3x3 *)

Module Matrix3x3.

(** [float m[3][3]] *)
Definition t (F : Type) : Type := array3 (array3 F).

Section WithScalar.
Context {F : Type} {SF : Scalar F}.
Local Open Scope fl_scope.

(** [m[i][j]] *)
Definition get (a : t F) (i j : Z) : F := get3 (get3 a i) j.

(** [m[i][j] = v] *)
Definition set (a : t F) (i j : Z) (v : F) : t F :=
  set3 a i (set3 (get3 a i) j v).

(** the nine-argument constructor *)
Definition mk (m00 m01 m02 m10 m11 m12 m20 m21 m22 : F) : t F :=
  Array3 (Array3 m00 m01 m02) (Array3 m10 m11 m12) (Array3 m20 m21 m22).

(** [void setIdentity()] assigns all nine elements *)
Definition setIdentity (a : t F) : t F :=
  let a := set a 0 0 Math.one in
  let a := set a 0 1 Math.zero in
  let a := set a 0 2 Math.zero in
  let a := set a 1 0 Math.zero in
  let a := set a 1 1 Math.one in
  let a := set a 1 2 Math.zero in
  let a := set a 2 0 Math.zero in
  let a := set a 2 1 Math.zero in
  set a 2 2 Math.one.

(** [Matrix3x3()] runs [setIdentity] on the fresh object, whose
    storage [raw] holds indeterminate values. *)
Definition default_from (raw : t F) : t F := setIdentity raw.

Definition default : t F :=
  default_from (mk Math.zero Math.zero Math.zero Math.zero Math.zero
                   Math.zero Math.zero Math.zero Math.zero).

Definition identity : t F :=
  mk Math.one Math.zero Math.zero
     Math.zero Math.one Math.zero
     Math.zero Math.zero Math.one.

Definition zero : t F :=
  mk Math.zero Math.zero Math.zero
     Math.zero Math.zero Math.zero
     Math.zero Math.zero Math.zero.

Definition add (a o : t F) : t F :=
  for_range 0 3 1
    (fun i r =>
       for_range 0 3 1 (fun j r => set r i j (get a i j + get o i j)) r)
    default.

Definition sub (a o : t F) : t F :=
  for_range 0 3 1
    (fun i r =>
       for_range 0 3 1 (fun j r => set r i j (get a i j - get o i j)) r)
    default.

Definition mul_scalar (a : t F) (scalar : F) : t F :=
  for_range 0 3 1
    (fun i r =>
       for_range 0 3 1 (fun j r => set r i j (get a i j * scalar)) r)
    default.

Definition mul (a o : t F) : t F :=
  for_range 0 3 1
    (fun row r =>
       for_range 0 3 1
         (fun col r =>
            for_range 0 3 1
              (fun k r =>
                 set r row col (get r row col + get a row k * get o k col))
              r)
         r)
    zero.

(** [operator*(const CVector2&)] *)
Definition mul_vec2 (a : t F) (vec : CVector2.t F) : CVector2.t F :=
  let x := get a 0 0 * CVector2.x vec + get a 0 1 * CVector2.y vec
           + get a 0 2 * Math.one in
  let y := get a 1 0 * CVector2.x vec + get a 1 1 * CVector2.y vec
           + get a 1 2 * Math.one in
  let w := get a 2 0 * CVector2.x vec + get a 2 1 * CVector2.y vec
           + get a 2 2 * Math.one in
  let '(x, y) := if w != Math.zero then (x / w, y / w) else (x, y) in
  CVector2.mk x y.

(** [operator*(const CVector3&)] *)
Definition mul_vec3 (a : t F) (vec : CVector3.t F) : CVector3.t F :=
  CVector3.mk
    (get a 0 0 * CVector3.x vec + get a 0 1 * CVector3.y vec
     + get a 0 2 * CVector3.z vec)
    (get a 1 0 * CVector3.x vec + get a 1 1 * CVector3.y vec
     + get a 1 2 * CVector3.z vec)
    (get a 2 0 * CVector3.x vec + get a 2 1 * CVector3.y vec
     + get a 2 2 * CVector3.z vec).

Definition determinant (a : t F) : F :=
  get a 0 0 * (get a 1 1 * get a 2 2 - get a 1 2 * get a 2 1)
  - get a 0 1 * (get a 1 0 * get a 2 2 - get a 1 2 * get a 2 0)
  + get a 0 2 * (get a 1 0 * get a 2 1 - get a 1 1 * get a 2 0).

Definition transpose (a : t F) : t F :=
  mk (get a 0 0) (get a 1 0) (get a 2 0)
     (get a 0 1) (get a 1 1) (get a 2 1)
     (get a 0 2) (get a 1 2) (get a 2 2).

(** [%] on [int] truncates towards zero: [Z.rem] *)
Definition cofactor (a : t F) (row col : Z) : F :=
  let r1 := Z.rem (row + 1) 3 in
  let r2 := Z.rem (row + 2) 3 in
  let c1 := Z.rem (col + 1) 3 in
  let c2 := Z.rem (col + 2) 3 in
  let minor := get a r1 c1 * get a r2 c2 - get a r1 c2 * get a r2 c1 in
  if (Z.rem (row + col) 2 =? 0)%Z then minor else - minor.

Definition cofactorMatrix (a : t F) : t F :=
  mk (cofactor a 0 0) (cofactor a 0 1) (cofactor a 0 2)
     (cofactor a 1 0) (cofactor a 1 1) (cofactor a 1 2)
     (cofactor a 2 0) (cofactor a 2 1) (cofactor a 2 2).

Definition adjugate (a : t F) : t F := transpose (cofactorMatrix a).

Definition inverse (a : t F) : t F :=
  let det := determinant a in
  if det == Math.zero then identity
  else mul_scalar (adjugate a) (Math.one / det).

(** [operator*=(float)]: the matrix after the assignment *)
Definition mul_scalar_assign (a : t F) (scalar : F) : t F :=
  for_range 0 3 1
    (fun i a =>
       for_range 0 3 1 (fun j a => set a i j (get a i j * scalar)) a)
    a.

End WithScalar.
End Matrix3x3.

(** ** namespace EngineUtilities

    The older structs of the same names: Matrix2x2 (part_004),
    Matrix3x3 (EngineUtilities/Matrix3x3.h) and Matrix4x4
    (EngineUtilities/EngineUtilities/Matrix4x4.h, part_001). *)

Module EngineUtilities.

Module Matrix2x2.

(** [float m[2][2]] *)
Definition t (F : Type) : Type := array2 (array2 F).

Section WithScalar.
Context {F : Type} {SF : Scalar F}.
Local Open Scope fl_scope.

Definition get (a : t F) (i j : Z) : F := get2 (get2 a i) j.

(** [Matrix2x2(float a, float b, float c, float d)] *)
Definition ctor (a b c d : F) : t F := Array2 (Array2 a b) (Array2 c d).

(** [Matrix2x2()]: the default arguments are [1, 0, 0, 1] *)
Definition default : t F := ctor Math.one Math.zero Math.zero Math.one.

Definition determinant (a : t F) : F :=
  get a 0 0 * get a 1 1 - get a 0 1 * get a 1 0.

Definition transpose (a : t F) : t F :=
  ctor (get a 0 0) (get a 1 0) (get a 0 1) (get a 1 1).

Definition inverse (a : t F) : t F :=
  let det := determinant a in
  if det == Math.zero then default
  else
    let invDet := Math.one / det in
    ctor (get a 1 1 * invDet) (- get a 0 1 * invDet)
         (- get a 1 0 * invDet) (get a 0 0 * invDet).

End WithScalar.
End Matrix2x2.

Module Matrix3x3.

(** [float m[3][3]] *)
Definition t (F : Type) : Type := array3 (array3 F).

Section WithScalar.
Context {F : Type} {SF : Scalar F}.
Local Open Scope fl_scope.

Definition get (a : t F) (i j : Z) : F := get3 (get3 a i) j.

Definition set (a : t F) (i j : Z) (v : F) : t F :=
  set3 a i (set3 (get3 a i) j v).

(** an array whose nine elements are [v] *)
Definition fill (v : F) : t F :=
  let row := Array3 v v v in Array3 row row row.

(** [Matrix3x3(float diag)] on the fresh object, whose storage [raw]
    holds indeterminate values *)
Definition ctor_from (raw : t F) (diag : F) : t F :=
  for_range 0 3 1
    (fun i m =>
       for_range 0 3 1
         (fun j m => set m i j (if (i =? j)%Z then diag else Math.zero)) m)
    raw.

Definition ctor (diag : F) : t F := ctor_from (fill Math.zero) diag.

(** [Matrix3x3()]: the default argument is [1.0f] *)
Definition default : t F := ctor Math.one.

Definition identity : t F := ctor Math.one.

Definition transpose (a : t F) : t F :=
  for_range 0 3 1
    (fun i result =>
       for_range 0 3 1 (fun j result => set result i j (get a j i)) result)
    default.

Definition determinant (a : t F) : F :=
  get a 0 0 * (get a 1 1 * get a 2 2 - get a 1 2 * get a 2 1)
  - get a 0 1 * (get a 1 0 * get a 2 2 - get a 1 2 * get a 2 0)
  + get a 0 2 * (get a 1 0 * get a 2 1 - get a 1 1 * get a 2 0).

End WithScalar.
End Matrix3x3.

Module Matrix4x4.

(** [float m[4][4]] *)
Definition t (F : Type) : Type := array4 (array4 F).

Section WithScalar.
Context {F : Type} {SF : Scalar F}.
Local Open Scope fl_scope.

Definition get (a : t F) (i j : Z) : F := get4 (get4 a i) j.

Definition set (a : t F) (i j : Z) (v : F) : t F :=
  set4 a i (set4 (get4 a i) j v).

(** an array whose sixteen elements are [v] *)
Definition fill (v : F) : t F :=
  let row := Array4 v v v v in Array4 row row row row.

(** [Matrix4x4(float diag)] on the fresh object, whose storage [raw]
    holds indeterminate values *)
Definition ctor_from (raw : t F) (diag : F) : t F :=
  for_range 0 4 1
    (fun i m =>
       for_range 0 4 1
         (fun j m => set m i j (if (i =? j)%Z then diag else Math.zero)) m)
    raw.

Definition ctor (diag : F) : t F := ctor_from (fill Math.zero) diag.

(** [Matrix4x4()]: the default argument is [1.0f] *)
Definition default : t F := ctor Math.one.

Definition identity : t F := ctor Math.one.

Definition transpose (a : t F) : t F :=
  for_range 0 4 1
    (fun i result =>
       for_range 0 4 1 (fun j result => set result i j (get a j i)) result)
    default.

Definition translate (tx ty tz : F) : t F :=
  let result := identity in
  let result := set result 0 3 tx in
  let result := set result 1 3 ty in
  set result 2 3 tz.

Definition scale (sx sy sz : F) : t F :=
  let result := identity in
  let result := set result 0 0 sx in
  let result := set result 1 1 sy in
  set result 2 2 sz.

End WithScalar.
End Matrix4x4.

(** [std::sqrt] on [float]: the correctly rounded square root of
    IEEE-754 *)
Definition std_sqrt (x : float) : float :=
  SFsqrt Binary32.prec Binary32.emax x.

Module Vector2.
Record t : Type := mk { x : float; y : float }.

Local Open Scope fl_scope.

(** [Vector2()]: both default arguments are [0.0f] *)
Definition default : t := mk Math.zero Math.zero.

Definition magnitude (a : t) : float := std_sqrt (x a * x a + y a * y a).

Definition normalized (a : t) : t :=
  let mag := magnitude a in
  if mag > Math.zero then mk (x a / mag) (y a / mag) else default.

Definition dot (a other : t) : float := x a * x other + y a * y other.

End Vector2.

Module Vector3.
Record t : Type := mk { x : float; y : float; z : float }.

Local Open Scope fl_scope.

Definition default : t := mk Math.zero Math.zero Math.zero.

Definition magnitude (a : t) : float :=
  std_sqrt (x a * x a + y a * y a + z a * z a).

Definition normalized (a : t) : t :=
  let mag := magnitude a in
  if mag > Math.zero then mk (x a / mag) (y a / mag) (z a / mag) else default.

Definition dot (a other : t) : float :=
  x a * x other + y a * y other + z a * z other.

Definition cross (a other : t) : t :=
  mk (y a * z other - z a * y other)
     (z a * x other - x a * z other)
     (x a * y other - y a * x other).

End Vector3.

Module Vector4.
Record t : Type := mk { x : float; y : float; z : float; w : float }.

Local Open Scope fl_scope.

Definition default : t := mk Math.zero Math.zero Math.zero Math.zero.

Definition magnitude (a : t) : float :=
  std_sqrt (x a * x a + y a * y a + z a * z a + w a * w a).

Definition normalized (a : t) : t :=
  let mag := magnitude a in
  if mag > Math.zero then mk (x a / mag) (y a / mag) (z a / mag) (w a / mag)
  else default.

Definition dot (a other : t) : float :=
  x a * x other + y a * y other + z a * z other + w a * w other.

End Vector4.

Module Quaternion.

(** [float w, x, y, z;] *)
Record t : Type := mk { w : float; x : float; y : float; z : float }.

Local Open Scope fl_scope.

(** [Quaternion()]: the default arguments are [1, 0, 0, 0] *)
Definition default : t := mk Math.one Math.zero Math.zero Math.zero.

Definition magnitude (q : t) : float :=
  std_sqrt (w q * w q + x q * x q + y q * y q + z q * z q).

Definition normalized (q : t) : t :=
  let mag := magnitude q in
  if mag > Math.zero then mk (w q / mag) (x q / mag) (y q / mag) (z q / mag)
  else default.

Definition conjugate (q : t) : t := mk (w q) (- x q) (- y q) (- z q).

End Quaternion.

End EngineUtilities.

(** ** Constants.h: namespace EU::Constants *)

Module Constants.

(** [constexpr float EPSILON = 1e-6f;] *)
Definition EPSILON : float := of_lit 1 1000000.

(** [constexpr float PI = 3.14159265358979323846f;] and the constants
    beside it *)
Definition PI : float := of_lit 314159265358979323846 100000000000000000000.
Definition TWO_PI : float := of_lit 628318530717958647692 100000000000000000000.
Definition HALF_PI : float := of_lit 157079632679489661923 100000000000000000000.
Definition QUARTER_PI : float :=
  of_lit 785398163397448309616 1000000000000000000000.
Definition DEG_TO_RAD : float := (PI / of_int 180)%fl.
Definition RAD_TO_DEG : float := (of_int 180 / PI)%fl.
Definition ONE : float := of_int 1.
Definition ZERO : float := of_int 0.
Definition INF : float := of_int (10 ^ 30).
Definition NEG_INF : float := of_int (- 10 ^ 30).

End Constants.

(** * Notions and inputs of the properties *)

(** [|a - b| <= eps], the reading of "a is within eps of b" *)
Definition within (eps a b : float) : bool := (Math.abs (a - b) <= eps)%fl.

Module Sim.

(** Two floats that are the same value: identical, or two zeros
    (which may differ in sign, and compare equal). *)
Definition sim (x y : float) : Prop :=
  x = y \/ (Binary32.is_zero x = true /\ Binary32.is_zero y = true).

Definition quat (p q : Quaternion.t float) : Prop :=
  sim (Quaternion.x p) (Quaternion.x q) /\
  sim (Quaternion.y p) (Quaternion.y q) /\
  sim (Quaternion.z p) (Quaternion.z q) /\
  sim (Quaternion.w p) (Quaternion.w q).

Definition finite_quat (q : Quaternion.t float) : bool :=
  Binary32.is_finite (Quaternion.x q) && Binary32.is_finite (Quaternion.y q)
  && Binary32.is_finite (Quaternion.z q) && Binary32.is_finite (Quaternion.w q).

(** not negative: [+0], a positive number, [+infinity], or a NaN *)
Definition nonneg (x : float) : bool :=
  match x with
  | S754_zero s | S754_infinity s | S754_finite s _ _ => negb s
  | S754_nan => true
  end.

(** [+infinity] or a NaN *)
Definition huge (x : float) : bool :=
  match x with
  | S754_infinity false | S754_nan => true
  | _ => false
  end.

Definition nan_quat : Quaternion.t float :=
  Quaternion.mk Binary32.nan Binary32.nan Binary32.nan Binary32.nan.

(** [x == y] in C++: the two are the same value and no NaN *)
Definition same_value (x y : float) : Prop :=
  Binary32.is_nan x = false /\ sim x y.

(** a number that a binary32 variable holds: finite and in canonical
    form *)
Definition regular (x : float) : bool :=
  Binary32.is_finite x && Binary32.valid x.

Definition vec3 (a b : CVector3.t float) : Prop :=
  sim (CVector3.x a) (CVector3.x b) /\
  sim (CVector3.y a) (CVector3.y b) /\
  sim (CVector3.z a) (CVector3.z b).

Definition vec4 (a b : CVector4.t float) : Prop :=
  sim (CVector4.x a) (CVector4.x b) /\
  sim (CVector4.y a) (CVector4.y b) /\
  sim (CVector4.z a) (CVector4.z b) /\
  sim (CVector4.w a) (CVector4.w b).

Definition mat2 (a b : Matrix2x2.t float) : Prop :=
  sim (Matrix2x2.m00 a) (Matrix2x2.m00 b) /\
  sim (Matrix2x2.m01 a) (Matrix2x2.m01 b) /\
  sim (Matrix2x2.m10 a) (Matrix2x2.m10 b) /\
  sim (Matrix2x2.m11 a) (Matrix2x2.m11 b).

Definition mat3 (a b : Matrix3x3.t float) : Prop :=
  forall i j : Z, 0 <= i < 3 -> 0 <= j < 3 ->
    sim (Matrix3x3.get a i j) (Matrix3x3.get b i j).

End Sim.

(** Row [i] of [a] times column [j] of [o], accumulated from [0] as
    the innermost loop of [Matrix3x3::operator*] does. *)
Definition dot3 {F : Type} {SF : Scalar F} (a o : Matrix3x3.t F) (i j : Z) : F :=
  (Math.zero + Matrix3x3.get a i 0 * Matrix3x3.get o 0 j
   + Matrix3x3.get a i 1 * Matrix3x3.get o 1 j
   + Matrix3x3.get a i 2 * Matrix3x3.get o 2 j)%fl.

(** The textbook formulas that [Matrix3x3::cofactor] and
    [Matrix3x3::inverse] are compared with, over exact arithmetic. *)
Module Textbook.

(** The cofactor of the textbooks: the determinant of the matrix
    without row [row] and column [col], the remaining rows and columns
    in their order, negated when [row + col] is odd. *)
Definition textbook_cofactor (a : Matrix3x3.t Qc) (row col : Z) : Qc :=
  let r1 := if row =? 0 then 1 else 0 in
  let r2 := if row =? 2 then 1 else 2 in
  let c1 := if col =? 0 then 1 else 0 in
  let c2 := if col =? 2 then 1 else 2 in
  let minor :=
    (Matrix3x3.get a r1 c1 * Matrix3x3.get a r2 c2
     - Matrix3x3.get a r1 c2 * Matrix3x3.get a r2 c1)%fl in
  if Z.even (row + col) then minor else (- minor)%fl.

(** the formula of [Matrix3x3::inverse] with the textbook cofactors in
    the place of [cofactor] *)
Definition textbook_inverse (a : Matrix3x3.t Qc) : Matrix3x3.t Qc :=
  Matrix3x3.mul_scalar
    (Matrix3x3.transpose
       (Matrix3x3.mk
          (textbook_cofactor a 0 0) (textbook_cofactor a 0 1) (textbook_cofactor a 0 2)
          (textbook_cofactor a 1 0) (textbook_cofactor a 1 1) (textbook_cofactor a 1 2)
          (textbook_cofactor a 2 0) (textbook_cofactor a 2 1) (textbook_cofactor a 2 2)))
    (Math.one / Matrix3x3.determinant a)%fl.

End Textbook.

(** *** Inputs *)

(** the singular matrices [1 2; 2 4] and [1 2 3; 2 4 6; 0 0 1] *)
Definition singular2 : Matrix2x2.t float :=
  Matrix2x2.mk (of_int 1) (of_int 2) (of_int 2) (of_int 4).

Definition singular3 : Matrix3x3.t float :=
  Matrix3x3.mk (of_int 1) (of_int 2) (of_int 3)
               (of_int 2) (of_int 4) (of_int 6)
               (of_int 0) (of_int 0) (of_int 1).

(** the quaternions [(0,0,0,0)] and [(0,0,0,2)] *)
Definition quat_zero : Quaternion.t float :=
  Quaternion.mk Math.zero Math.zero Math.zero Math.zero.

Definition quat_two : Quaternion.t float :=
  Quaternion.mk Math.zero Math.zero Math.zero Math.two.

(** [1073741824.0f], that is 2^30: neighbouring floats are 64 and 128
    apart, so subtracting [2.0f * 3.14159265f] rounds back to 2^30. *)
Definition two_pow_30 : float := of_int 1073741824.

(** the vector [(1000, 0, 0)] *)
Definition v1000 : CVector3.t float :=
  CVector3.mk (of_int 1000) Math.zero Math.zero.

(** the shear [1 1 0; 0 1 0; 0 0 1], of determinant [1] *)
Definition shear3 : Matrix3x3.t float :=
  Matrix3x3.mk (of_int 1) (of_int 1) (of_int 0)
               (of_int 0) (of_int 1) (of_int 0)
               (of_int 0) (of_int 0) (of_int 1).

(** [diag(1e-20f, 1e-20f)] *)
Definition tiny2 : Matrix2x2.t float :=
  Matrix2x2.mk (of_lit 1 100000000000000000000) Math.zero
               Math.zero (of_lit 1 100000000000000000000).

(** * Properties *)

(** ** Loops *)

Section LoopFacts.
Context {St : Type}.
Implicit Types (body : Z -> St -> St) (s : St).

Lemma for_range_empty lo hi step body s :
  hi <= lo -> for_range lo hi step body s = s.
Proof.
  intros Hle. unfold for_range.
  replace (Z.to_nat (hi - lo)) with O by lia.
  reflexivity.
Qed.

(** The fuel of [for_range] is enough: once the counter has reached
    the bound, further fuel changes nothing, and with a step of at
    least one [hi - i] iterations reach it. *)
Lemma for_fuel_done fuel i hi step body s :
  hi <= i -> for_fuel fuel i hi step body s = s.
Proof.
  intros Hle. destruct fuel as [|k]; simpl; [reflexivity|].
  destruct (Z.ltb_spec i hi); [lia | reflexivity].
Qed.

Lemma for_fuel_more fuel extra i hi step body s :
  1 <= step -> hi - i <= Z.of_nat fuel ->
  for_fuel (fuel + extra) i hi step body s = for_fuel fuel i hi step body s.
Proof.
  intros Hstep. revert i s.
  induction fuel as [|k IH]; intros i s Hfuel.
  - simpl. apply for_fuel_done. lia.
  - simpl. destruct (Z.ltb_spec i hi); [|reflexivity].
    apply IH. lia.
Qed.

(** A loop that steps by one and ignores its counter iterates its
    body [hi - lo] times. *)
Lemma for_fuel_iter (f : St -> St) fuel i hi s :
  Z.of_nat fuel = hi - i ->
  for_fuel fuel i hi 1 (fun _ => f) s = Nat.iter fuel f s.
Proof.
  revert i s. induction fuel as [|k IH]; intros i s Hfuel; [reflexivity|].
  cbn [for_fuel]. destruct (Z.ltb_spec i hi); [|lia].
  rewrite IH by lia. symmetry. apply Nat.iter_succ_r.
Qed.

Lemma while_fuel_stuck (cond : St -> bool) (step : St -> St) s :
  cond s = true -> step s = s ->
  forall fuel, while_fuel fuel cond step s = None.
Proof.
  intros Hcond Hfix fuel.
  induction fuel as [|k IH]; simpl; [reflexivity|].
  rewrite Hcond, Hfix. exact IH.
Qed.

Lemma while_fuel_exit (cond : St -> bool) (step : St -> St) s fuel :
  cond s = false -> while_fuel (S fuel) cond step s = Some s.
Proof. intros Hcond. simpl. rewrite Hcond. reflexivity. Qed.

(** A loop that has reached its exit with some fuel reaches the same
    exit with more: the result of the loop does not depend on the fuel. *)
Lemma while_fuel_more (cond : St -> bool) (step : St -> St) fuel extra s r :
  while_fuel fuel cond step s = Some r ->
  while_fuel (fuel + extra) cond step s = Some r.
Proof.
  revert s. induction fuel as [|k IH]; intros s; simpl; [discriminate|].
  destruct (cond s); [apply IH | trivial].
Qed.

(** The state at the exit does not satisfy the loop condition. *)
Lemma while_fuel_post (cond : St -> bool) (step : St -> St) fuel s r :
  while_fuel fuel cond step s = Some r -> cond r = false.
Proof.
  revert s. induction fuel as [|k IH]; intros s; simpl; [discriminate|].
  destruct (cond s) eqn:Hc; [apply IH|].
  intros [= <-]. exact Hc.
Qed.

End LoopFacts.

(** ** ScalarMath *)

(** C8.  For every float [x <= 0], [EU::Math::sqrt(x)] returns [0] and
    [EU::Math::log(x)] returns [0]: the guard [if (x <= 0.f) return 0.f;]
    opens both functions, so no NaN and no error comes out of a domain
    violation. *)
Theorem sqrt_log_nonpositive (x : float) :
  (x <= Math.zero)%fl = true ->
  Math.sqrt x = Math.zero /\ Math.log x = Math.zero.
Proof.
  intros Hle. unfold Math.sqrt, Math.log.
  rewrite Hle. split; reflexivity.
Qed.

Lemma sqrt_log_nonpositive_witness :
  ((of_int (-4) : float) <= Math.zero)%fl = true /\
  Math.sqrt (of_int (-4) : float) = Math.zero /\
  Math.log (of_int (-4) : float) = Math.zero.
Proof.
  split; [reflexivity | apply (sqrt_log_nonpositive (of_int (-4))); reflexivity].
Defined.

(** For a non-negative exponent, [power] multiplies [1] by [x], [n]
    times over; [sqrt] of a positive [x] is ten Newton steps from [x / 2]. *)
Lemma power_iterates (x : float) (n : Z) :
  0 <= n ->
  Math.power x n = Nat.iter (Z.to_nat n) (fun result => (result * x)%fl) Math.one.
Proof.
  intros Hn. unfold Math.power, for_range.
  rewrite Z.sub_0_r.
  apply (for_fuel_iter (fun result : float => (result * x)%fl)). lia.
Qed.

Lemma power_iterates_witness :
  Math.power (of_int 2 : float) 10 = of_int 1024.
Proof.
  rewrite (power_iterates (of_int 2) 10) by lia.
  reflexivity.
Defined.

Lemma sqrt_iterates (x : float) :
  (x <= Math.zero)%fl = false ->
  Math.sqrt x =
    Nat.iter 10 (fun guess => (Math.half * (guess + x / guess))%fl)
      (x / Math.two)%fl.
Proof.
  intros Hx. unfold Math.sqrt. rewrite Hx. unfold for_range.
  apply (for_fuel_iter
           (fun guess : float => (Math.half * (guess + x / guess))%fl)).
  reflexivity.
Qed.

(** C10.  For every float [x] and every integer [n <= 0],
    [EU::Math::power(x, n)] is exactly [1]: the loop
    [for (int i = 0; i < n; ++i)] runs no iteration, so a negative
    exponent computes no reciprocal and [power(0, 0)] is [1]. *)
Theorem power_nonpositive_exponent (x : float) (n : Z) :
  n <= 0 -> Math.power x n = Math.one.
Proof.
  intros Hn. unfold Math.power. apply for_range_empty. exact Hn.
Qed.

Lemma power_nonpositive_exponent_witness :
  -3 <= 0 /\
  Math.power (of_int 2 : float) (-3) = Math.one /\
  Math.power (Math.zero : float) 0 = Math.one.
Proof.
  split; [lia|]. split.
  - apply (power_nonpositive_exponent (of_int 2) (-3)). lia.
  - apply (power_nonpositive_exponent Math.zero 0). lia.
Defined.

(** ** Matrices *)

(** What the loops of EU::Matrix3x3 compute, element by element. *)
Section Matrix3x3Loops.
Context {F : Type} {SF : Scalar F}.
Local Open Scope fl_scope.
Implicit Types (a o : Matrix3x3.t F).

Lemma Matrix3x3_mul_scalar_elements a (scalar : F) :
  Matrix3x3.mul_scalar a scalar =
    Matrix3x3.mk
      (Matrix3x3.get a 0 0 * scalar) (Matrix3x3.get a 0 1 * scalar)
      (Matrix3x3.get a 0 2 * scalar)
      (Matrix3x3.get a 1 0 * scalar) (Matrix3x3.get a 1 1 * scalar)
      (Matrix3x3.get a 1 2 * scalar)
      (Matrix3x3.get a 2 0 * scalar) (Matrix3x3.get a 2 1 * scalar)
      (Matrix3x3.get a 2 2 * scalar).
Proof. destruct a as [[? ? ?] [? ? ?] [? ? ?]]. reflexivity. Qed.

Lemma Matrix3x3_mul_elements a o :
  Matrix3x3.mul a o =
    Matrix3x3.mk (dot3 a o 0 0) (dot3 a o 0 1) (dot3 a o 0 2)
                 (dot3 a o 1 0) (dot3 a o 1 1) (dot3 a o 1 2)
                 (dot3 a o 2 0) (dot3 a o 2 1) (dot3 a o 2 2).
Proof.
  destruct a as [[? ? ?] [? ? ?] [? ? ?]].
  destruct o as [[? ? ?] [? ? ?] [? ? ?]].
  reflexivity.
Qed.

End Matrix3x3Loops.

(** C4.  For every Matrix2x2 and every Matrix3x3 [M] whose
    [determinant()] compares equal to [0], [M.inverse()] returns the
    identity matrix and signals nothing.  [inverse] is a [const] member
    function: it is a function of [M] alone, and [M] is what it was.
    The same holds of the older [EngineUtilities::Matrix2x2]. *)
Theorem inverse_singular_is_identity :
  (forall M : Matrix2x2.t float,
      (Matrix2x2.determinant M == Math.zero)%fl = true ->
      Matrix2x2.inverse M = Matrix2x2.identity) /\
  (forall M : Matrix3x3.t float,
      (Matrix3x3.determinant M == Math.zero)%fl = true ->
      Matrix3x3.inverse M = Matrix3x3.identity) /\
  (forall M : EngineUtilities.Matrix2x2.t float,
      (EngineUtilities.Matrix2x2.determinant M == Math.zero)%fl = true ->
      EngineUtilities.Matrix2x2.inverse M = EngineUtilities.Matrix2x2.default).
Proof.
  split; [|split]; intros M Hdet.
  - unfold Matrix2x2.inverse. rewrite Hdet. reflexivity.
  - unfold Matrix3x3.inverse. rewrite Hdet. reflexivity.
  - unfold EngineUtilities.Matrix2x2.inverse. rewrite Hdet. reflexivity.
Qed.

Lemma inverse_singular_is_identity_witness :
  Matrix2x2.inverse singular2 = Matrix2x2.identity /\
  Matrix3x3.inverse singular3 = Matrix3x3.identity.
Proof.
  split.
  - apply (proj1 inverse_singular_is_identity singular2). reflexivity.
  - apply (proj1 (proj2 inverse_singular_is_identity) singular3). reflexivity.
Defined.

(** The constructor of Matrix4x4 assigns all sixteen elements: the
    indeterminate values of the fresh object do not reach the result. *)
Lemma Matrix4x4_ctor_from_any (raw raw' : EngineUtilities.Matrix4x4.t float)
  (diag : float) :
  EngineUtilities.Matrix4x4.ctor_from raw diag
  = EngineUtilities.Matrix4x4.ctor_from raw' diag.
Proof.
  destruct raw as [[? ? ? ?] [? ? ? ?] [? ? ? ?] [? ? ? ?]].
  destruct raw' as [[? ? ? ?] [? ? ? ?] [? ? ? ?] [? ? ? ?]].
  reflexivity.
Qed.

Lemma Matrix3x3_default_from_any (raw : Matrix3x3.t float) :
  Matrix3x3.default_from raw = Matrix3x3.identity.
Proof. destruct raw as [[? ? ?] [? ? ?] [? ? ?]]. reflexivity. Qed.

(** What the loops of [Matrix4x4::transpose] leave in [result]. *)
Lemma Matrix4x4_transpose_get (M : EngineUtilities.Matrix4x4.t float) (i j : Z) :
  0 <= i < 4 -> 0 <= j < 4 ->
  EngineUtilities.Matrix4x4.get (EngineUtilities.Matrix4x4.transpose M) i j
  = EngineUtilities.Matrix4x4.get M j i.
Proof.
  intros Hi Hj.
  assert (Ei : i = 0 \/ i = 1 \/ i = 2 \/ i = 3) by lia.
  assert (Ej : j = 0 \/ j = 1 \/ j = 2 \/ j = 3) by lia.
  destruct M as [[? ? ? ?] [? ? ? ?] [? ? ? ?] [? ? ? ?]].
  destruct Ei as [-> | [-> | [-> | ->]]];
    destruct Ej as [-> | [-> | [-> | ->]]]; reflexivity.
Qed.

Lemma Matrix4x4_transpose_get_witness :
  EngineUtilities.Matrix4x4.get
    (EngineUtilities.Matrix4x4.transpose
       (EngineUtilities.Matrix4x4.translate (of_int 5) (of_int 6) (of_int 7)))
    3 1
  = (of_int 6 : float).
Proof.
  rewrite (Matrix4x4_transpose_get _ 3 1) by lia.
  reflexivity.
Defined.

(** C7.  For every square matrix [M] (EU::Matrix2x2, EU::Matrix3x3,
    EngineUtilities::Matrix4x4, and the older Matrix2x2 and Matrix3x3 of
    namespace EngineUtilities), [M.transpose().transpose()] is [M],
    component for component: no arithmetic touches the elements, so
    the equality is exact (NaN and signed zeros included). *)
Theorem transpose_involutive :
  (forall M : Matrix2x2.t float,
      Matrix2x2.transpose (Matrix2x2.transpose M) = M) /\
  (forall M : Matrix3x3.t float,
      Matrix3x3.transpose (Matrix3x3.transpose M) = M) /\
  (forall M : EngineUtilities.Matrix4x4.t float,
      EngineUtilities.Matrix4x4.transpose
        (EngineUtilities.Matrix4x4.transpose M) = M) /\
  (forall M : EngineUtilities.Matrix2x2.t float,
      EngineUtilities.Matrix2x2.transpose
        (EngineUtilities.Matrix2x2.transpose M) = M) /\
  (forall M : EngineUtilities.Matrix3x3.t float,
      EngineUtilities.Matrix3x3.transpose
        (EngineUtilities.Matrix3x3.transpose M) = M).
Proof.
  repeat split; intros M.
  - destruct M as [a b c d]. reflexivity.
  - destruct M as [[? ? ?] [? ? ?] [? ? ?]]. reflexivity.
  - destruct M as [[? ? ? ?] [? ? ? ?] [? ? ? ?] [? ? ? ?]]. reflexivity.
  - destruct M as [[? ?] [? ?]]. reflexivity.
  - destruct M as [[? ? ?] [? ? ?] [? ? ?]]. reflexivity.
Qed.

(** C9.  For every Matrix3x3 [M] and every 2D vector [v], [M * v] is
    the product of [M] with the homogeneous vector [(v.x, v.y, 1)], as
    [operator*(const CVector3&)] computes it, whose [x] and [y] are
    divided by its third component [w] if and only if [w != 0]; the
    guard makes the operation total. *)
Theorem mul_vec2_homogeneous (M : Matrix3x3.t float) (v : CVector2.t float) :
  let h := Matrix3x3.mul_vec3 M
             (CVector3.mk (CVector2.x v) (CVector2.y v) Math.one) in
  let w := CVector3.z h in
  Matrix3x3.mul_vec2 M v =
    if (w != Math.zero)%fl
    then CVector2.mk (CVector3.x h / w)%fl (CVector3.y h / w)%fl
    else CVector2.mk (CVector3.x h) (CVector3.y h).
Proof.
  intros h w. subst w h.
  unfold Matrix3x3.mul_vec2, Matrix3x3.mul_vec3.
  cbn [CVector3.x CVector3.y CVector3.z].
  destruct (negb _); reflexivity.
Qed.

(** ** Quaternion *)

(** C6, as the specification states it, fails: the in-place
    [normalize()] of a quaternion of magnitude [0] does not yield the
    identity quaternion.  On [(0,0,0,0)] the magnitude is [0] and the
    call leaves [(0,0,0,0)], whose [w] is not [1]. *)
Lemma normalize_zero_not_identity :
  (Quaternion.length quat_zero == Math.zero)%fl = true /\
  Quaternion.normalize quat_zero = quat_zero /\
  Quaternion.normalize quat_zero <> Quaternion.identity /\
  Quaternion.eqb (Quaternion.normalize quat_zero) Quaternion.identity = false.
Proof.
  repeat split; try reflexivity. discriminate.
Qed.

(** C6, amended.  For every quaternion [q] whose magnitude compares
    equal to [0], [normalized()] returns the identity quaternion
    [(0,0,0,1)], and the in-place [normalize()] returns at its guard
    [if (len == 0.f) return;] and leaves [q] as it was.  Neither
    divides by the magnitude. *)
Theorem normalize_zero_magnitude (q : Quaternion.t float) :
  (Quaternion.length q == Math.zero)%fl = true ->
  Quaternion.normalized q = Quaternion.identity /\
  Quaternion.normalize q = q.
Proof.
  intros Hlen. unfold Quaternion.normalized, Quaternion.normalize.
  rewrite Hlen. split; reflexivity.
Qed.

Lemma normalize_zero_magnitude_witness :
  Quaternion.normalized quat_zero = Quaternion.identity /\
  Quaternion.normalize quat_zero = quat_zero.
Proof.
  apply (normalize_zero_magnitude quat_zero). reflexivity.
Defined.

(** *** Interpolating a quaternion with itself *)

Module SimFacts.
Import Sim.

Lemma sim_refl x : sim x x.
Proof. left. reflexivity. Qed.

(** [x - x] is [+0] for every finite [x] (round to nearest). *)
Lemma sub_diag (x : float) :
  Binary32.is_finite x = true -> (x - x)%fl = S754_zero false.
Proof.
  destruct x as [[|] | | | s m e]; try discriminate; intros _;
    try reflexivity.
  cbn [fsub binary32]. unfold SFsub.
  rewrite Z.sub_diag. reflexivity.
Qed.

(** The clamp of [lerp] sends every [t] that is not a NaN into
    [[0, 1]]: infinities are clamped away. *)
Lemma clamp_finite (t : float) :
  Binary32.is_nan t = false ->
  Binary32.is_finite
    (if (t < Math.zero)%fl then Math.zero
     else if (t > Math.one)%fl then Math.one else t) = true.
Proof.
  destruct t as [s | [|] | | [|] m e]; try discriminate; intros _;
    try reflexivity.
  change ((S754_finite false m e : float) < Math.zero)%fl with false.
  cbv iota.
  match goal with |- context [if ?c then _ else _] => destruct c end;
    reflexivity.
Qed.

Lemma zero_mul_finite (t : float) :
  Binary32.is_finite t = true ->
  Binary32.is_zero (S754_zero false * t)%fl = true.
Proof. destruct t; try discriminate; reflexivity. Qed.

Lemma add_zero (x z : float) :
  Binary32.is_finite x = true -> Binary32.is_zero z = true ->
  sim (x + z)%fl x.
Proof.
  destruct z as [sz | | |]; try discriminate.
  destruct x as [[|] | | | s m e]; try discriminate; intros _ _.
  - destruct sz; [left | right]; split; reflexivity.
  - destruct sz; [right | left]; try split; reflexivity.
  - left. reflexivity.
Qed.

(** One component of the blend [a + (a - a) * t]. *)
Lemma blend_same (x t : float) :
  Binary32.is_finite x = true -> Binary32.is_finite t = true ->
  sim (x + (x - x) * t)%fl x.
Proof.
  intros Hx Ht. rewrite (sub_diag x Hx).
  apply add_zero; [exact Hx | apply zero_mul_finite; exact Ht].
Qed.

Lemma mul_self (x y : float) : sim x y -> (x * x)%fl = (y * y)%fl.
Proof.
  intros [-> | [Hx Hy]]; [reflexivity|].
  destruct x as [[|] | | |]; try discriminate;
    destruct y as [[|] | | |]; try discriminate; reflexivity.
Qed.

Lemma div_same (x y l : float) : sim x y -> sim (x / l)%fl (y / l)%fl.
Proof.
  intros [-> | [Hx Hy]]; [apply sim_refl|].
  destruct x as [sx | | |]; try discriminate.
  destruct y as [sy | | |]; try discriminate.
  destruct l as [sl | sl | | sl ml el]; cbn [fdiv binary32 SFdiv];
    try (left; reflexivity); right; split; reflexivity.
Qed.

Lemma length_same (p q : Quaternion.t float) :
  quat p q -> Quaternion.length p = Quaternion.length q.
Proof.
  intros (Hx & Hy & Hz & Hw). unfold Quaternion.length.
  rewrite (mul_self _ _ Hx), (mul_self _ _ Hy),
    (mul_self _ _ Hz), (mul_self _ _ Hw).
  reflexivity.
Qed.

Lemma normalized_same (p q : Quaternion.t float) :
  quat p q -> quat (Quaternion.normalized p) (Quaternion.normalized q).
Proof.
  intros Hpq. unfold Quaternion.normalized.
  rewrite (length_same p q Hpq).
  destruct Hpq as (Hx & Hy & Hz & Hw).
  destruct (Quaternion.length q == Math.zero)%fl.
  - repeat split; apply sim_refl.
  - repeat split; cbn [Quaternion.x Quaternion.y Quaternion.z Quaternion.w];
      apply div_same; assumption.
Qed.

(** *** Components that are not finite *)

Lemma round_aux_nonneg mx ex lx :
  nonneg (binary_round_aux Binary32.prec Binary32.emax false mx ex lx) = true.
Proof.
  unfold binary_round_aux.
  destruct (shr_fexp _ _ mx ex lx) as [mrs e1].
  destruct (shr_fexp _ _ _ e1 loc_Exact) as [mrs2 e2].
  destruct (shr_m mrs2); [reflexivity | | reflexivity].
  destruct (e2 <=? _); reflexivity.
Qed.

Lemma mul_self_nonneg (x : float) : nonneg (x * x)%fl = true.
Proof.
  destruct x as [[|] | [|] | | s m e]; try reflexivity.
  cbn [fmul binary32 SFmul].
  replace (xorb s s) with false by (destruct s; reflexivity).
  apply round_aux_nonneg.
Qed.

Lemma mul_self_huge (x : float) :
  Binary32.is_finite x = false -> huge (x * x)%fl = true.
Proof. destruct x as [? | [|] | | ? ? ?]; try discriminate; reflexivity. Qed.

Lemma add_nonneg (x y : float) :
  nonneg x = true -> nonneg y = true -> nonneg (x + y)%fl = true.
Proof.
  destruct x as [[|] | [|] | | [|] mx ex]; try discriminate;
    destruct y as [[|] | [|] | | [|] my ey]; try discriminate;
    intros _ _; try reflexivity.
  cbn [fadd binary32 SFadd cond_Zopp Z.add binary_normalize].
  unfold binary_round.
  destruct (shl_align _ _ _) as [mz ez].
  apply round_aux_nonneg.
Qed.

Lemma add_huge_l (x y : float) :
  huge x = true -> nonneg y = true -> huge (x + y)%fl = true.
Proof.
  destruct x as [? | [|] | | ? ? ?]; try discriminate;
    destruct y as [[|] | [|] | | [|] ? ?]; try discriminate; reflexivity.
Qed.

Lemma add_huge_r (x y : float) :
  nonneg x = true -> huge y = true -> huge (x + y)%fl = true.
Proof.
  destruct y as [? | [|] | | ? ? ?]; try discriminate;
    destruct x as [[|] | [|] | | [|] ? ?]; try discriminate; reflexivity.
Qed.

Lemma huge_nonneg (x : float) : huge x = true -> nonneg x = true.
Proof. destruct x as [? | [|] | | ? ? ?]; try discriminate; reflexivity. Qed.

(** Ten Newton steps from [+infinity] or from a NaN end in a NaN. *)
Lemma sqrt_huge (x : float) : huge x = true -> Math.sqrt x = Binary32.nan.
Proof. destruct x as [? | [|] | | ? ? ?]; try discriminate; reflexivity. Qed.

Lemma div_nan (x : float) : (x / Binary32.nan)%fl = Binary32.nan.
Proof. destruct x; reflexivity. Qed.

Lemma length_not_finite (q : Quaternion.t float) :
  finite_quat q = false -> Quaternion.length q = Binary32.nan.
Proof.
  intros Hq. unfold Quaternion.length. apply sqrt_huge.
  destruct q as [x y z w]. unfold finite_quat in Hq.
  cbn [Quaternion.x Quaternion.y Quaternion.z Quaternion.w] in *.
  pose proof (mul_self_nonneg x) as Nx. pose proof (mul_self_nonneg y) as Ny.
  pose proof (mul_self_nonneg z) as Nz. pose proof (mul_self_nonneg w) as Nw.
  destruct (Binary32.is_finite x) eqn:Fx.
  2:{ exact (add_huge_l _ _ (add_huge_l _ _
               (add_huge_l _ _ (mul_self_huge _ Fx) Ny) Nz) Nw). }
  destruct (Binary32.is_finite y) eqn:Fy.
  2:{ exact (add_huge_l _ _ (add_huge_l _ _
               (add_huge_r _ _ Nx (mul_self_huge _ Fy)) Nz) Nw). }
  destruct (Binary32.is_finite z) eqn:Fz.
  2:{ exact (add_huge_l _ _
               (add_huge_r _ _ (add_nonneg _ _ Nx Ny) (mul_self_huge _ Fz)) Nw). }
  destruct (Binary32.is_finite w) eqn:Fw; [discriminate|].
  exact (add_huge_r _ _ (add_nonneg _ _ (add_nonneg _ _ Nx Ny) Nz)
           (mul_self_huge _ Fw)).
Qed.

Lemma normalized_not_finite (q : Quaternion.t float) :
  finite_quat q = false -> Quaternion.normalized q = nan_quat.
Proof.
  intros Hq. unfold Quaternion.normalized.
  rewrite (length_not_finite q Hq).
  change (Binary32.nan == Math.zero)%fl with false. cbv iota.
  rewrite !div_nan. reflexivity.
Qed.

(** A component that is not finite is lost in the blend:
    [inf - inf] and every operation on a NaN are a NaN. *)
Lemma blend_not_finite (x t : float) :
  Binary32.is_finite x = false -> (x + (x - x) * t)%fl = Binary32.nan.
Proof.
  destruct x as [? | [|] | | ? ? ?]; try discriminate; intros _;
    destruct t; reflexivity.
Qed.

Lemma blend_nan (x : float) :
  (x + (x - x) * Binary32.nan)%fl = Binary32.nan.
Proof.
  assert (H : ((x - x) * Binary32.nan)%fl = Binary32.nan)
    by (destruct (x - x)%fl; reflexivity).
  rewrite H. destruct x; reflexivity.
Qed.

Ltac nan_component :=
  intros;
  change (Binary32.is_finite Binary32.nan) with false;
  rewrite ?andb_false_r; reflexivity.

Lemma blend_quat_not_finite (a : Quaternion.t float) (t : float) :
  finite_quat a = false ->
  finite_quat
    (Quaternion.mk
       (Quaternion.x a + (Quaternion.x a - Quaternion.x a) * t)%fl
       (Quaternion.y a + (Quaternion.y a - Quaternion.y a) * t)%fl
       (Quaternion.z a + (Quaternion.z a - Quaternion.z a) * t)%fl
       (Quaternion.w a + (Quaternion.w a - Quaternion.w a) * t)%fl) = false.
Proof.
  destruct a as [x y z w]. unfold finite_quat.
  cbn [Quaternion.x Quaternion.y Quaternion.z Quaternion.w].
  destruct (Binary32.is_finite x) eqn:Fx;
    [|rewrite (blend_not_finite x t Fx); reflexivity].
  destruct (Binary32.is_finite y) eqn:Fy;
    [|rewrite (blend_not_finite y t Fy); nan_component].
  destruct (Binary32.is_finite z) eqn:Fz;
    [|rewrite (blend_not_finite z t Fz); nan_component].
  destruct (Binary32.is_finite w) eqn:Fw; [discriminate|].
  intros _. rewrite (blend_not_finite w t Fw). nan_component.
Qed.

End SimFacts.

(** C1, as the specification states it, fails: [lerp(a, a, t)] is not
    [a] when [a] is not a unit quaternion.  For [a = (0,0,0,2)] and
    [t = 0.5] the blend is [a] and its renormalization is [(0,0,0,1)],
    which [operator==] tells from [a]. *)
Lemma lerp_same_not_noop :
  Quaternion.lerp quat_two quat_two Math.half = Quaternion.identity /\
  Quaternion.eqb (Quaternion.lerp quat_two quat_two Math.half) quat_two = false.
Proof. split; reflexivity. Qed.

(** C1, amended.  For every quaternion [a] and every [t] that is not
    a NaN, [EU::Quaternion::lerp(a, a, t)] is [a.normalized()],
    component for component (a zero component may come out with the
    other sign, and both sides are NaN in every component when a
    component of [a] is not finite): the blend of identical endpoints
    is [a], and the renormalization that follows is that of [a], which
    is [a] only for a quaternion that [normalized()] leaves alone. *)
Theorem lerp_same_is_normalized (a : Quaternion.t float) (t : float) :
  Binary32.is_nan t = false ->
  Sim.quat (Quaternion.lerp a a t) (Quaternion.normalized a).
Proof.
  intros Ht. unfold Quaternion.lerp.
  destruct (Sim.finite_quat a) eqn:Ha.
  - apply SimFacts.normalized_same.
    pose proof (SimFacts.clamp_finite t Ht) as Hc.
    unfold Sim.finite_quat in Ha.
    apply andb_prop in Ha as [Ha Hw].
    apply andb_prop in Ha as [Ha Hz].
    apply andb_prop in Ha as [Hx Hy].
    repeat split; cbn [Quaternion.x Quaternion.y Quaternion.z Quaternion.w];
      apply SimFacts.blend_same; assumption.
  - rewrite (SimFacts.normalized_not_finite a Ha).
    rewrite SimFacts.normalized_not_finite
      by (apply SimFacts.blend_quat_not_finite; exact Ha).
    repeat split; apply SimFacts.sim_refl.
Qed.

Lemma lerp_same_is_normalized_witness :
  Sim.quat (Quaternion.lerp quat_two quat_two Math.half)
           (Quaternion.normalized quat_two).
Proof.
  apply (lerp_same_is_normalized quat_two Math.half); reflexivity.
Defined.

(** With a NaN for [t] every component of the result is a NaN,
    whatever [a] is. *)
Lemma lerp_same_nan_parameter (a : Quaternion.t float) :
  Quaternion.lerp a a Binary32.nan = Sim.nan_quat.
Proof.
  unfold Quaternion.lerp.
  change (Binary32.nan < Math.zero)%fl with false.
  change (Binary32.nan > Math.one)%fl with false.
  cbv iota. rewrite !SimFacts.blend_nan.
  reflexivity.
Qed.

(** ** Where the code departs from its contract *)

(** *** Range reduction of [sin] and [cos] *)

Lemma reduce_stuck (x : float) :
  (x > Math.pi)%fl = true -> (x - Math.two * Math.pi)%fl = x ->
  forall fuel, Math.reduce fuel x = None.
Proof.
  intros Hgt Hfix fuel. unfold Math.reduce.
  rewrite (while_fuel_stuck (fun x : float => (x > Math.pi)%fl)
             (fun x : float => (x - Math.two * Math.pi)%fl) x Hgt Hfix).
  reflexivity.
Qed.

(** C2 at a failing input.  [sin] and [cos] reduce their argument with
    [while (x > 3.14159265f) x -= 2.0f * 3.14159265f;], a loop with no
    fixed bound.  At [x = 2^30], a binary32 number, and at [+infinity]
    the subtraction returns [x] itself, so the loop condition stays
    true: whatever the fuel, neither function reaches its [return]. *)
Theorem sin_cos_no_return :
  Binary32.valid two_pow_30 = true /\
  (two_pow_30 - Math.two * Math.pi)%fl = two_pow_30 /\
  forall fuel : nat,
    Math.sin fuel two_pow_30 = None /\
    Math.cos fuel two_pow_30 = None /\
    Math.sin fuel Binary32.pos_infinity = None /\
    Math.cos fuel Binary32.pos_infinity = None.
Proof.
  split; [reflexivity|]. split; [reflexivity|].
  intros fuel. unfold Math.sin, Math.cos.
  rewrite (reduce_stuck two_pow_30) by reflexivity.
  rewrite (reduce_stuck Binary32.pos_infinity) by reflexivity.
  repeat split.
Qed.

(** By contrast the loops are left at once on a NaN, every comparison
    with which is false, and on an argument already in [[-pi, pi]]. *)
Lemma reduce_in_range (x : float) (fuel : nat) :
  (x > Math.pi)%fl = false -> (x < - Math.pi)%fl = false ->
  Math.reduce (S fuel) x = Some x.
Proof.
  intros Hhi Hlo. unfold Math.reduce.
  rewrite while_fuel_exit by exact Hhi.
  apply while_fuel_exit. exact Hlo.
Qed.

Lemma sin_cos_nan (fuel : nat) :
  Math.sin (S fuel) Binary32.nan = Some Binary32.nan /\
  Math.cos (S fuel) Binary32.nan = Some Binary32.nan.
Proof.
  unfold Math.sin, Math.cos.
  rewrite (reduce_in_range Binary32.nan fuel) by reflexivity.
  split; reflexivity.
Qed.

(** *** Normalizing a long vector *)

Lemma normalized_zero_length (v : CVector3.t float) :
  (CVector3.length v == Math.zero)%fl = true ->
  CVector3.normalized v = CVector3.zero.
Proof.
  intros Hlen. unfold CVector3.normalized. rewrite Hlen. reflexivity.
Qed.

(** C3 at a failing input.  The zero vector normalizes to the zero
    vector, but [v = (1000, 0, 0)] has [v.length() > 0] and
    [v.normalized().length()] is not within [1e-5] of [1]: ten Newton
    steps from [x / 2] have not converged on [x = 1000000], so
    [length()] returns 1033.84 and the normalized vector has length
    0.96727. *)
Theorem normalized_v1000_not_unit :
  CVector3.normalized (CVector3.zero : CVector3.t float) = CVector3.zero /\
  (CVector3.length v1000 > Math.zero)%fl = true /\
  CVector3.length v1000 = S754_finite false 8469226 (-13) /\
  CVector3.length (CVector3.normalized v1000) = S754_finite false 16228042 (-24) /\
  within (of_lit 1 100000) (CVector3.length (CVector3.normalized v1000)) Math.one
    = false.
Proof. repeat split; vm_compute; reflexivity. Qed.

(** *** The inverse of a 3x3 matrix *)

(** C5 at a failing input.  [shear3] has determinant [1], and
    [shear3 * shear3.inverse()] is [1 2 0; 0 1 0; 0 0 1]: its element
    (0,1) is [2] where the identity has [0].  [cofactor] takes its
    minor with the cyclic indices [(i+1) % 3], [(i+2) % 3], which
    already carries the sign of the cofactor, and negates it once more
    when [row + col] is odd; [inverse()] inherits the wrong sign at
    (0,1), (1,0), (1,2) and (2,1).  All values are small integers: no
    rounding takes part. *)
Theorem inverse3_shear_not_inverse :
  (Matrix3x3.determinant shear3 != Math.zero)%fl = true /\
  Matrix3x3.get (Matrix3x3.inverse shear3) 0 1 = Math.one /\
  Matrix3x3.mul shear3 (Matrix3x3.inverse shear3)
    = Matrix3x3.mk (of_int 1) (of_int 2) (of_int 0)
                   (of_int 0) (of_int 1) (of_int 0)
                   (of_int 0) (of_int 0) (of_int 1) /\
  within Constants.EPSILON
    (Matrix3x3.get (Matrix3x3.mul shear3 (Matrix3x3.inverse shear3)) 0 1)
    (Matrix3x3.get Matrix3x3.identity 0 1) = false.
Proof. repeat split; vm_compute; reflexivity. Qed.

(** ** The literals of the source *)

(** [3.14159265f] is the binary32 number 0x40490FDB, and [2.0f] times
    it is 0x40C90FDB. *)
Lemma pi_binary32 :
  (Math.pi : float) = S754_finite false 13176795 (-22) /\
  (Math.two * Math.pi)%fl = (S754_finite false 13176795 (-21) : float) /\
  Binary32.valid Math.pi = true.
Proof. repeat split. Qed.

(** It is the float nearest to the decimal: they differ by less than
    half of the distance 2^-22 between neighbouring floats of [[2, 4)]. *)
Lemma pi_binary32_nearest :
  (Qabs ((13176795 # 4194304) - (314159265 # 100000000)) < 1 # 8388608)%Q.
Proof. reflexivity. Qed.

Lemma small_literals_binary32 :
  (Math.zero : float) = S754_zero false /\
  (Math.one : float) = S754_finite false 8388608 (-23) /\
  (Math.two : float) = S754_finite false 8388608 (-22) /\
  (Math.half : float) = S754_finite false 8388608 (-24).
Proof. repeat split. Qed.

(** The inputs at which the properties above are evaluated are
    numbers that a binary32 variable can hold. *)
Lemma inputs_valid :
  Binary32.valid (of_int 1000) = true /\
  Binary32.valid two_pow_30 = true /\
  forallb (fun n => Binary32.valid (of_int (Z.of_nat n))) (seq 0 51) = true /\
  Binary32.valid (of_lit 1 100000000000000000000) = true /\
  Binary32.valid (of_lit 1 100000) = true /\
  Binary32.valid Constants.EPSILON = true /\
  Binary32.valid Math.half = true.
Proof. repeat split. Qed.

(** ** The same formulas over exact arithmetic *)

Module ExactFacts.
Import Textbook.









Lemma textbook_inverse_is_inverse (a : Matrix3x3.t Qc) :
  Matrix3x3.determinant a <> Math.zero ->
  Matrix3x3.mul a (textbook_inverse a) = Matrix3x3.identity.
Proof.
  intros Hdet.
  unfold textbook_inverse.
  rewrite Matrix3x3_mul_scalar_elements, Matrix3x3_mul_elements.
  destruct a as [[a00 a01 a02] [a10 a11 a12] [a20 a21 a22]].
  unfold dot3, textbook_cofactor, Matrix3x3.transpose, Matrix3x3.identity,
    Matrix3x3.determinant, Matrix3x3.get, Matrix3x3.mk in *.
  cbn in Hdet |- *.
  change (Exact.of_int 0) with 0%Qc in *.
  change (Exact.of_int 1) with 1%Qc.
  repeat f_equal; field; exact Hdet.
Qed.

(** The failing input of C5 read over exact arithmetic: the product is
    the same [1 2 0; 0 1 0; 0 0 1], so rounding has no part in it. *)
Lemma inverse3_shear_exact :
  let shear : Matrix3x3.t Qc :=
    Matrix3x3.mk (of_int 1) (of_int 1) (of_int 0)
                 (of_int 0) (of_int 1) (of_int 0)
                 (of_int 0) (of_int 0) (of_int 1) in
  Matrix3x3.determinant shear = Math.one /\
  Matrix3x3.get (Matrix3x3.mul shear (Matrix3x3.inverse shear)) 0 1
    = (of_int 2 : Qc).
Proof.
  split; apply Qc_is_canon; reflexivity.
Qed.

End ExactFacts.

(** ** The limits of binary32 in [Matrix2x2::inverse]

    Rounding alone bounds what C5 can ask of the 2x2 inverse.  For
    [M = diag(1e-20f, 1e-20f)] the determinant is a subnormal number,
    not zero; [1.f / det] overflows to infinity, and every element of
    [M * M.inverse()] is a NaN. *)
Lemma inverse2_tiny_is_nan :
  Binary32.valid (Matrix2x2.m00 tiny2) = true /\
  (Matrix2x2.determinant tiny2 != Math.zero)%fl = true /\
  Matrix2x2.mul tiny2 (Matrix2x2.inverse tiny2)
    = Matrix2x2.mk Binary32.nan Binary32.nan Binary32.nan Binary32.nan.
Proof. repeat split. Qed.

(** ** Within range, and the scenarios of the specification *)

(** For a NaN and for every argument already in [[-pi, pi]], [sin] and
    [cos] leave both loops without an iteration and return their
    Taylor polynomial. *)
Theorem sin_cos_in_range (x : float) (fuel : nat) :
  (x > Math.pi)%fl = false -> (x < - Math.pi)%fl = false ->
  Math.sin (S fuel) x =
    Some (x - (x * x * x) / of_int 6 + (x * x * (x * x) * x) / of_int 120
          - (x * x * (x * x) * (x * x) * x) / of_int 5040)%fl /\
  Math.cos (S fuel) x =
    Some (Math.one - x * x / Math.two + (x * x * (x * x)) / of_int 24
          - (x * x * (x * x) * (x * x)) / of_int 720)%fl.
Proof.
  intros Hhi Hlo. unfold Math.sin, Math.cos.
  rewrite (reduce_in_range x fuel Hhi Hlo).
  split; reflexivity.
Qed.

Lemma sin_cos_in_range_witness :
  Math.sin 1 (Math.zero : float) = Some Math.zero /\
  Math.cos 1 (Math.zero : float) = Some Math.one.
Proof.
  destruct (sin_cos_in_range Math.zero 0) as [Hs Hc]; try reflexivity.
  rewrite Hs, Hc. split; reflexivity.
Defined.

(** [Matrix2x2(1,2,3,4) * Matrix2x2(5,6,7,8)] is
    [Matrix2x2(19,22,43,50)]. *)
Example Matrix2x2_product_scenario :
  Matrix2x2.mul
    (Matrix2x2.mk (of_int 1) (of_int 2) (of_int 3) (of_int 4))
    (Matrix2x2.mk (of_int 5) (of_int 6) (of_int 7) (of_int 8))
  = (Matrix2x2.mk (of_int 19) (of_int 22) (of_int 43) (of_int 50)
     : Matrix2x2.t float).
Proof. reflexivity. Qed.

(** [CVector3(1,0,0).cross(CVector3(0,1,0))] is [CVector3(0,0,1)]. *)
Example CVector3_cross_scenario :
  CVector3.cross
    (CVector3.mk (of_int 1) (of_int 0) (of_int 0))
    (CVector3.mk (of_int 0) (of_int 1) (of_int 0))
  = (CVector3.mk (of_int 0) (of_int 0) (of_int 1) : CVector3.t float).
Proof. reflexivity. Qed.

(** * Further properties of the code *)

(** ** Binary32 arithmetic

    Facts of the operations of binary32 that hold for every operand,
    read off their definition by cases: no bound on a rounding error is
    used anywhere below. *)

Module FloatFacts.
Import Sim SimFacts.

Lemma opp_involutive (x : float) : (- - x)%fl = x.
Proof. destruct x as [[|] | [|] | | [|] m e]; reflexivity. Qed.

Lemma compare_cont_antisym_eq (m n : positive) :
  Pos.compare_cont Eq n m = CompOpp (Pos.compare_cont Eq m n).
Proof. symmetry. apply (Pos.compare_cont_antisym m n Eq). Qed.

Lemma compare_antisym (x y : float) :
  SFcompare y x = option_map CompOpp (SFcompare x y).
Proof.
  destruct x as [[|] | [|] | | [|] mx ex]; destruct y as [[|] | [|] | | [|] my ey];
    try reflexivity; cbn [SFcompare option_map];
    rewrite (Z.compare_antisym ex ey); destruct (ex ?= ey); cbn [CompOpp];
    try reflexivity;
    rewrite (compare_cont_antisym_eq mx my);
    destruct (Pos.compare_cont Eq mx my); reflexivity.
Qed.

Lemma eqb_sym (x y : float) : (x == y)%fl = (y == x)%fl.
Proof.
  cbn [feqb binary32]. unfold SFeqb. rewrite (compare_antisym y x).
  destruct (SFcompare y x) as [[| |]|]; reflexivity.
Qed.

Lemma ltb_gtb (x y : float) : (x < y)%fl = true -> (y < x)%fl = false.
Proof.
  cbn [fltb binary32]. unfold SFltb. rewrite (compare_antisym x y).
  destruct (SFcompare x y) as [[| |]|]; cbn; congruence.
Qed.

Lemma eqb_refl (x : float) : (x == x)%fl = negb (Binary32.is_nan x).
Proof.
  destruct x as [[|] | [|] | | [|] m e]; try reflexivity;
    cbn [feqb binary32 Binary32.is_nan negb]; unfold SFeqb; cbn [SFcompare];
    rewrite Z.compare_refl, Pos.compare_cont_refl; reflexivity.
Qed.

Lemma eqb_true_iff (x y : float) :
  (x == y)%fl = true <-> Binary32.is_nan x = false /\ sim x y.
Proof.
  split.
  - destruct x as [[|] | [|] | | [|] mx ex]; destruct y as [[|] | [|] | | [|] my ey];
      try discriminate; intros H; split; try reflexivity;
      try (left; reflexivity); try (right; split; reflexivity);
      cbn [feqb binary32] in H; unfold SFeqb in H; cbn [SFcompare] in H;
      destruct (Z.compare_spec ex ey) as [-> | |]; try discriminate;
      change (Pos.compare_cont Eq mx my) with (Pos.compare mx my) in H;
      destruct (Pos.compare_spec mx my) as [-> | |]; try discriminate;
      left; reflexivity.
  - intros [Hn [-> | [Hx Hy]]].
    + rewrite eqb_refl, Hn. reflexivity.
    + destruct x; try discriminate; destruct y; try discriminate; reflexivity.
Qed.

Lemma mul_comm (x y : float) : (x * y)%fl = (y * x)%fl.
Proof.
  destruct x as [sx | sx | | sx mx ex]; destruct y as [sy | sy | | sy my ey];
    cbn [fmul binary32 SFmul]; rewrite ?(xorb_comm sy sx); try reflexivity.
  rewrite (Pos.mul_comm my mx), (Z.add_comm ey ex). reflexivity.
Qed.

Lemma add_comm (x y : float) : (x + y)%fl = (y + x)%fl.
Proof.
  destruct x as [[|] | [|] | | sx mx ex]; destruct y as [[|] | [|] | | sy my ey];
    try reflexivity.
  cbn [fadd binary32 SFadd].
  rewrite (Z.min_comm ey ex), Z.add_comm. reflexivity.
Qed.


(** The sign of a rounded number is the sign that was given. *)
Lemma round_aux_opp s mx ex lx :
  SFopp (binary_round_aux Binary32.prec Binary32.emax s mx ex lx)
  = binary_round_aux Binary32.prec Binary32.emax (negb s) mx ex lx.
Proof.
  unfold binary_round_aux.
  destruct (shr_fexp _ _ mx ex lx) as [mrs e1].
  destruct (shr_fexp _ _ _ e1 loc_Exact) as [mrs2 e2].
  destruct (shr_m mrs2); [reflexivity | | reflexivity].
  destruct (e2 <=? _); reflexivity.
Qed.

Lemma round_opp s m e :
  SFopp (binary_round Binary32.prec Binary32.emax s m e)
  = binary_round Binary32.prec Binary32.emax (negb s) m e.
Proof.
  unfold binary_round. destruct (shl_align _ _ _) as [mz ez].
  apply round_aux_opp.
Qed.

Lemma opp_mul_l (x y : float) : (- x * y)%fl = (- (x * y))%fl.
Proof.
  destruct x as [sx | sx | | sx mx ex]; destruct y as [sy | sy | | sy my ey];
    cbn [fmul fneg binary32 SFmul SFopp]; rewrite ?negb_xorb_l; try reflexivity.
  symmetry. rewrite <- negb_xorb_l. apply round_aux_opp.
Qed.

Lemma opp_mul_r (x y : float) : (x * - y)%fl = (- (x * y))%fl.
Proof. rewrite (mul_comm x), opp_mul_l, (mul_comm y). reflexivity. Qed.

Lemma opp_mul_opp (x y : float) : (- x * - y)%fl = (x * y)%fl.
Proof. rewrite opp_mul_l, opp_mul_r. apply opp_involutive. Qed.

Lemma opp_div_l (x y : float) : (- x / y)%fl = (- (x / y))%fl.
Proof.
  destruct x as [sx | sx | | sx mx ex]; destruct y as [sy | sy | | sy my ey];
    cbn [fdiv fneg binary32 SFdiv SFopp]; rewrite ?negb_xorb_l; try reflexivity.
  destruct (SFdiv_core_binary _ _ _ _ _ _) as [[mz ez] lz].
  symmetry. rewrite <- negb_xorb_l. apply round_aux_opp.
Qed.

Lemma cond_Zopp_negb s m : cond_Zopp (negb s) m = - cond_Zopp s m.
Proof. destruct s; cbn; lia. Qed.

Lemma sub_add_opp (x y : float) : (x - y)%fl = (x + - y)%fl.
Proof.
  destruct x as [[|] | [|] | | sx mx ex]; destruct y as [[|] | [|] | | sy my ey];
    try reflexivity.
  cbn [fadd fsub fneg binary32 SFadd SFsub SFopp].
  rewrite cond_Zopp_negb. reflexivity.
Qed.

Lemma normalize_opp (m e : Z) :
  m <> 0 ->
  SFopp (binary_normalize Binary32.prec Binary32.emax m e false)
  = binary_normalize Binary32.prec Binary32.emax (- m) e false.
Proof.
  destruct m as [|p|p]; [congruence | |]; intros _; cbn [binary_normalize Z.opp];
    apply round_opp.
Qed.

(** Negation goes through a sum, up to the sign of a zero result. *)
Lemma opp_add (x y : float) : sim (- (x + y))%fl (- x + - y)%fl.
Proof.
  destruct x as [[|] | [|] | | sx mx ex]; destruct y as [[|] | [|] | | sy my ey];
    try (left; reflexivity); try (right; split; reflexivity).
  cbn [fadd fneg binary32 SFadd SFopp].
  rewrite !cond_Zopp_negb.
  set (a := cond_Zopp sx _). set (b := cond_Zopp sy _).
  replace (- a + - b) with (- (a + b)) by lia.
  destruct (Z.eq_dec (a + b) 0) as [E|E].
  - rewrite E. right. split; reflexivity.
  - left. apply normalize_opp. exact E.
Qed.

Lemma sub_antisym (x y : float) : sim (x - y)%fl (- (y - x))%fl.
Proof.
  destruct x as [[|] | [|] | | sx mx ex]; destruct y as [[|] | [|] | | sy my ey];
    try (left; reflexivity); try (right; split; reflexivity);
    try (left; cbn; rewrite negb_involutive; reflexivity).
  cbn [fsub fneg binary32 SFsub SFopp].
  rewrite (Z.min_comm ey ex).
  set (a := cond_Zopp sx _). set (b := cond_Zopp sy _).
  destruct (Z.eq_dec (b - a) 0) as [E|E].
  - replace (a - b) with 0 by lia. rewrite E. right. split; reflexivity.
  - left. rewrite normalize_opp by exact E. f_equal. lia.
Qed.


(** *** Zeros *)

Lemma sim_sym (x y : float) : sim x y -> sim y x.
Proof. intros [-> | [Hx Hy]]; [left | right]; auto. Qed.

Lemma sim_trans (x y z : float) : sim x y -> sim y z -> sim x z.
Proof.
  intros [-> | [Hx Hy]] [-> | [Hy' Hz]]; try (left; reflexivity);
    try (right; split; assumption).
Qed.

Lemma sim_zero_l (x y : float) : sim x y -> Binary32.is_zero y = true ->
  Binary32.is_zero x = true.
Proof. intros [-> | [Hx _]] Hy; assumption. Qed.

(** adding or subtracting a zero changes nothing but, on a zero, the sign *)
Lemma add_zero_r (x z : float) : Binary32.is_zero z = true -> sim (x + z)%fl x.
Proof.
  destruct z as [sz | | |]; try discriminate; intros _.
  destruct x as [[|] | [|] | | s m e]; destruct sz;
    try (left; reflexivity); right; split; reflexivity.
Qed.

Lemma add_zero_l (x z : float) : Binary32.is_zero z = true -> sim (z + x)%fl x.
Proof. rewrite add_comm. apply add_zero_r. Qed.

Lemma sub_zero_r (x z : float) : Binary32.is_zero z = true -> sim (x - z)%fl x.
Proof.
  intros Hz. rewrite sub_add_opp. apply add_zero_r.
  destruct z; try discriminate; reflexivity.
Qed.

Lemma mul_zero_r (x z : float) :
  Binary32.is_finite x = true -> Binary32.is_zero z = true ->
  Binary32.is_zero (x * z)%fl = true.
Proof. destruct z; try discriminate; destruct x; try discriminate; reflexivity. Qed.

Lemma mul_zero_l (x z : float) :
  Binary32.is_finite x = true -> Binary32.is_zero z = true ->
  Binary32.is_zero (z * x)%fl = true.
Proof. rewrite mul_comm. apply mul_zero_r. Qed.

(** [sim] is kept by the operations, a divisor apart *)
Lemma sim_add (x y u v : float) : sim x y -> sim u v -> sim (x + u)%fl (y + v)%fl.
Proof.
  intros [-> | [Hx Hy]] [-> | [Hu Hv]]; try (left; reflexivity).
  - eapply sim_trans; [apply add_zero_r; exact Hu|].
    apply sim_sym, add_zero_r; exact Hv.
  - eapply sim_trans; [apply add_zero_l; exact Hx|].
    apply sim_sym, add_zero_l; exact Hy.
  - destruct x as [[|] | | |]; try discriminate;
      destruct y as [[|] | | |]; try discriminate;
      destruct u as [[|] | | |]; try discriminate;
      destruct v as [[|] | | |]; try discriminate;
      right; split; reflexivity.
Qed.

Lemma sim_opp (x y : float) : sim x y -> sim (- x)%fl (- y)%fl.
Proof.
  intros [-> | [Hx Hy]]; [left; reflexivity|].
  destruct x; try discriminate; destruct y; try discriminate.
  right. split; reflexivity.
Qed.

Lemma sim_sub (x y u v : float) : sim x y -> sim u v -> sim (x - u)%fl (y - v)%fl.
Proof.
  intros Hxy Huv. rewrite !sub_add_opp. apply sim_add; [exact Hxy|].
  apply sim_opp. exact Huv.
Qed.

Lemma sim_mul (x y u v : float) : sim x y -> sim u v -> sim (x * u)%fl (y * v)%fl.
Proof.
  assert (L : forall a b c : float,
             Binary32.is_zero a = true -> Binary32.is_zero b = true ->
             sim (a * c)%fl (b * c)%fl).
  { intros a b c Ha Hb.
    destruct a; try discriminate; destruct b; try discriminate.
    destruct c; try (left; reflexivity); right; split; reflexivity. }
  intros [-> | [Hx Hy]] [-> | [Hu Hv]]; try (left; reflexivity).
  - rewrite (mul_comm y u), (mul_comm y v). apply L; assumption.
  - apply L; assumption.
  - apply (sim_trans _ (y * u)%fl); [apply L; assumption|].
    rewrite (mul_comm y u), (mul_comm y v). apply L; assumption.
Qed.

(** *** Signs *)

Lemma nonneg_not_negative (x : float) :
  nonneg x = true -> (x < Math.zero)%fl = false.
Proof. destruct x as [[|] | [|] | | [|] m e]; try discriminate; reflexivity. Qed.

Lemma not_le_zero_nonneg (x : float) :
  (x <= Math.zero)%fl = false -> nonneg x = true.
Proof. destruct x as [[|] | [|] | | [|] m e]; try discriminate; reflexivity. Qed.

Lemma mul_nonneg (x y : float) :
  nonneg x = true -> nonneg y = true -> nonneg (x * y)%fl = true.
Proof.
  destruct x as [[|] | [|] | | [|] mx ex]; try discriminate;
    destruct y as [[|] | [|] | | [|] my ey]; try discriminate;
    intros _ _; try reflexivity.
  apply round_aux_nonneg.
Qed.

Lemma div_nonneg (x y : float) :
  nonneg x = true -> nonneg y = true -> nonneg (x / y)%fl = true.
Proof.
  destruct x as [[|] | [|] | | [|] mx ex]; try discriminate;
    destruct y as [[|] | [|] | | [|] my ey]; try discriminate;
    intros _ _; try reflexivity.
  cbn [fdiv binary32 SFdiv xorb].
  destruct (SFdiv_core_binary _ _ _ _ _ _) as [[mz ez] lz].
  apply round_aux_nonneg.
Qed.

(** *** Multiplying by [1.0f] *)

Lemma mul_one_finite s m e :
  bounded Binary32.prec Binary32.emax m e = true ->
  binary_round_aux Binary32.prec Binary32.emax s (Zpos (m * 8388608)) (e + -23)
    loc_Exact
  = S754_finite s m e.
Proof.
  intros Hb. unfold bounded, canonical_mantissa in Hb.
  apply andb_prop in Hb as [Hc He].
  apply Z.eqb_eq in Hc.
  unfold binary_round_aux.
  rewrite (Pos.mul_comm m). cbn [Pos.mul].
  match goal with
  | |- context [shr_fexp _ _ (Zpos ?p) ?e1 loc_Exact] =>
      assert (H1 : shr_fexp Binary32.prec Binary32.emax (Zpos p) e1 loc_Exact
                   = ({| shr_m := Zpos m; shr_r := false; shr_s := false |}, e))
  end.
  { unfold shr_fexp. cbn [Zdigits2 digits2_pos shr_record_of_loc].
    rewrite !Pos2Z.inj_succ.
    match goal with
    | |- context [fexp _ _ ?a] =>
        replace a with (Z.pos (digits2_pos m) + e) by lia
    end.
    rewrite Hc.
    replace (e - (e + -23)) with 23 by lia.
    cbn [shr iter_pos shr_1 orb].
    f_equal. lia. }
  rewrite H1. cbn [shr_m loc_of_shr_record round_nearest_even].
  unfold shr_fexp. cbn [Zdigits2 shr_record_of_loc].
  rewrite Hc, Z.sub_diag. cbn [shr shr_m].
  rewrite He. reflexivity.
Qed.

(** [x * 1.0f] is [x] for every number and non-number that a binary32
    variable holds. *)
Lemma mul_one_r (x : float) :
  Binary32.valid x = true -> (x * Math.one)%fl = x.
Proof.
  destruct x as [s | s | | s m e]; intros Hv;
    try (cbn; rewrite ?xorb_false_r; reflexivity).
  change (Math.one : float) with (S754_finite false 8388608 (-23)).
  cbn [fmul binary32 SFmul]. rewrite xorb_false_r.
  apply mul_one_finite. exact Hv.
Qed.

Lemma mul_one_l (x : float) :
  Binary32.valid x = true -> (Math.one * x)%fl = x.
Proof. rewrite mul_comm. apply mul_one_r. Qed.

End FloatFacts.
